(** * ChatBotX frontend: chat panel, chat slice and courses slice

    A shallow embedding of the client-side state logic of the ChatBotX
    frontend:

    - [JS]: the fragments of the JavaScript runtime the code relies on
      (strings as sequences of UTF-16 code units, [trim], [includes],
      [substr], truthiness of strings, the [any] type);
    - [ChatInterface]: the [ChatInterface] React component of
      [components/Chat/ChatInterface.tsx] -- its state, its socket
      listeners, its user-triggered handlers and what it renders;
    - [ChatSlice]: the [chat] Redux slice ([store/slices/chatSlice.ts]);
    - [CoursesSlice]: the [courses] Redux slice
      ([store/slices/coursesSlice.ts]).
*)

From Stdlib Require Import List ZArith NArith Bool String Ascii Lia Btauto.
From Stdlib Require Import Floats.PrimFloat Uint63.
From Stdlib Require Import Floats.FloatAxioms Floats.SpecFloat Floats.FloatOps.
Import ListNotations.

(* ===================================================================== *)
(** ** The JavaScript fragments used by the code *)
(* ===================================================================== *)

Module JS.

(** A JavaScript string is a finite sequence of UTF-16 code units. *)
Definition jsstring := list N.

(** A string literal of the source whose characters are all ASCII. *)
Definition lit (s : string) : jsstring :=
  map N_of_ascii (list_ascii_of_string s).

Definition jseqb (a b : jsstring) : bool :=
  if list_eq_dec N.eq_dec a b then true else false.

(** [WhiteSpace] and [LineTerminator] code units of ECMAScript, the ones
    [String.prototype.trim] strips: TAB, LF, VT, FF, CR, SP, NBSP,
    U+1680, U+2000..U+200A, U+2028, U+2029, U+202F, U+205F, U+3000 and
    U+FEFF. *)
Definition isWhiteSpace (c : N) : bool :=
  ((9 <=? c) && (c <=? 13)
   || (c =? 32) || (c =? 160) || (c =? 5760)
   || (8192 <=? c) && (c <=? 8202)
   || (c =? 8232) || (c =? 8233) || (c =? 8239) || (c =? 8287)
   || (c =? 12288) || (c =? 65279))%N.

Fixpoint trimStart (s : jsstring) : jsstring :=
  match s with
  | [] => []
  | c :: r => if isWhiteSpace c then trimStart r else s
  end.

Definition trimEnd (s : jsstring) : jsstring := rev (trimStart (rev s)).

(** [s.trim()] *)
Definition trim (s : jsstring) : jsstring := trimEnd (trimStart s).

(** Truthiness of a string: every string but the empty one. *)
Definition truthy (s : jsstring) : bool :=
  match s with [] => false | _ :: _ => true end.

(** [s.substr(start, length)] for non-negative [start]. *)
Definition substr (start len : nat) (s : jsstring) : jsstring :=
  firstn len (skipn start s).

Fixpoint startsWith (q s : jsstring) : bool :=
  match q, s with
  | [], _ => true
  | _ :: _, [] => false
  | a :: q', b :: s' => (a =? b)%N && startsWith q' s'
  end.

(** [s.includes(q)]: [q] occurs in [s] as a run of consecutive code
    units. *)
Fixpoint includes (s q : jsstring) : bool :=
  startsWith q s ||
  match s with
  | [] => false
  | _ :: r => includes r q
  end.

(** A value of type [any], as it comes out of a JSON payload. *)
#[local] Unset Elimination Schemes.
Inductive any : Type :=
| Null
| Bool (b : bool)
| Num (x : float)
| Str (s : jsstring)
| Arr (items : list any)
| Obj (fields : list (jsstring * any)).
#[local] Set Elimination Schemes.

End JS.

(* ===================================================================== *)
(** ** The chat panel: [components/Chat/ChatInterface.tsx] *)
(* ===================================================================== *)

Module ChatInterface.
Import JS.

(** *** Types *)

(** An element of [buttons] or [quick_replies]. *)
Record Button := { title : jsstring; payload : jsstring }.

Inductive Sender := user | bot.

(** A [Date], as milliseconds since the epoch. *)
Definition Date := Z.

(** [interface Message]; an optional field that is absent is [None]. *)
Record Message := {
  id : jsstring;
  text : jsstring;
  sender : Sender;
  timestamp : Date;
  typing : option bool;
  buttons : option (list Button);
  quick_replies : option (list Button);
  suggestions : option (list jsstring);
  metadata : option any
}.

(** [interface ChatState] *)
Record ChatState := {
  messages : list Message;
  isTyping : bool;
  isConnected : bool;
  currentLanguage : jsstring;
  isFullscreen : bool;
  showSettings : bool
}.

(** The object spreads [{ ...prev, field: value }] of the state updaters. *)
Definition with_messages (v : list Message) (prev : ChatState) : ChatState :=
  {| messages := v; isTyping := isTyping prev;
     isConnected := isConnected prev;
     currentLanguage := currentLanguage prev;
     isFullscreen := isFullscreen prev; showSettings := showSettings prev |}.

Definition with_isTyping (v : bool) (prev : ChatState) : ChatState :=
  {| messages := messages prev; isTyping := v;
     isConnected := isConnected prev;
     currentLanguage := currentLanguage prev;
     isFullscreen := isFullscreen prev; showSettings := showSettings prev |}.

Definition with_isConnected (v : bool) (prev : ChatState) : ChatState :=
  {| messages := messages prev; isTyping := isTyping prev;
     isConnected := v;
     currentLanguage := currentLanguage prev;
     isFullscreen := isFullscreen prev; showSettings := showSettings prev |}.

Definition with_isFullscreen (v : bool) (prev : ChatState) : ChatState :=
  {| messages := messages prev; isTyping := isTyping prev;
     isConnected := isConnected prev;
     currentLanguage := currentLanguage prev;
     isFullscreen := v; showSettings := showSettings prev |}.

Definition with_showSettings (v : bool) (prev : ChatState) : ChatState :=
  {| messages := messages prev; isTyping := isTyping prev;
     isConnected := isConnected prev;
     currentLanguage := currentLanguage prev;
     isFullscreen := isFullscreen prev; showSettings := v |}.

(** The argument of [socket.emit('message', ...)]. *)
Record OutgoingMetadata := {
  out_timestamp : jsstring;
  out_language : jsstring
}.

Record Outgoing := {
  out_sender : jsstring;
  out_message : jsstring;
  out_payload : option jsstring;
  out_metadata : OutgoingMetadata
}.

(** The argument [data: any] of a socket listener: the fields the
    listeners read, each at the type of the place it is stored in or
    passed to. *)
Record EventData := {
  data_text : jsstring;
  data_buttons : option (list Button);
  data_quick_replies : option (list Button);
  data_suggestions : option (list jsstring);
  data_metadata : option any;
  data_is_typing : bool;
  data_message_type : jsstring;
  data_message : jsstring
}.

(** What a handler reads from outside the program while it runs:
    [Math.random().toString(36)], [new Date()],
    [new Date().toISOString()], and what the browser offers. *)
Record Env := {
  random36 : jsstring;
  newDate : Date;
  isoNow : jsstring;
  (* ['speechSynthesis' in window] *)
  speechSynthesis : bool;
  (* the [try] block of [startRecording] runs to its end *)
  getUserMedia : bool
}.

Inductive ToastKind := success | error.

(** *** Effects

    A handler is the sequence of the calls it makes, in program order:
    state setters of the hooks, calls on the socket, toasts. React applies
    the queued updaters in the order of the calls. *)
Inductive Effect :=
| SetChatState (updater : ChatState -> ChatState)
| SetInputMessage (value : jsstring)
| SetIsRecording (value : bool)
| Emit (event : string) (body : Outgoing)
| Toast (kind : ToastKind) (msg : jsstring)
| Speak (utterance lang : jsstring)
| StartMediaRecorder
| StopMediaRecorder.

Definition isEmit (e : Effect) : bool :=
  match e with Emit _ _ => true | _ => false end.

Definition Listener := Env -> EventData -> list Effect.

(** The socket of [socket.io-client]: where it connects, the listeners
    registered with [on], in registration order, and what [emit] has sent,
    oldest first. *)
Record Socket := {
  uri : string;
  transports : list string;
  listeners : list (string * Listener);
  outbox : list (string * Outgoing)
}.

Definition io (u : string) (ts : list string) : Socket :=
  {| uri := u; transports := ts; listeners := []; outbox := [] |}.

Definition on (event : string) (l : Listener) (s : Socket) : Socket :=
  {| uri := uri s; transports := transports s;
     listeners := listeners s ++ [(event, l)]; outbox := outbox s |}.

Definition emit (event : string) (body : Outgoing) (s : Socket) : Socket :=
  {| uri := uri s; transports := transports s;
     listeners := listeners s; outbox := outbox s ++ [(event, body)] |}.

Inductive RecorderState := recording | inactive.

(** One mounted instance of the component: the values of its [useState]
    and [useRef] hooks, and what it has shown or said so far. *)
Record Panel := {
  chatState : ChatState;
  inputMessage : jsstring;
  isRecording : bool;
  clientId : jsstring;
  socketRef : option Socket;
  mediaRecorderRef : option RecorderState;
  toasts : list (ToastKind * jsstring);
  spoken : list (jsstring * jsstring)
}.

Definition with_chatState (v : ChatState) (p : Panel) : Panel :=
  {| chatState := v; inputMessage := inputMessage p;
     isRecording := isRecording p; clientId := clientId p;
     socketRef := socketRef p; mediaRecorderRef := mediaRecorderRef p;
     toasts := toasts p; spoken := spoken p |}.

Definition with_inputMessage (v : jsstring) (p : Panel) : Panel :=
  {| chatState := chatState p; inputMessage := v;
     isRecording := isRecording p; clientId := clientId p;
     socketRef := socketRef p; mediaRecorderRef := mediaRecorderRef p;
     toasts := toasts p; spoken := spoken p |}.

Definition with_isRecording (v : bool) (p : Panel) : Panel :=
  {| chatState := chatState p; inputMessage := inputMessage p;
     isRecording := v; clientId := clientId p;
     socketRef := socketRef p; mediaRecorderRef := mediaRecorderRef p;
     toasts := toasts p; spoken := spoken p |}.

Definition with_socketRef (v : option Socket) (p : Panel) : Panel :=
  {| chatState := chatState p; inputMessage := inputMessage p;
     isRecording := isRecording p; clientId := clientId p;
     socketRef := v; mediaRecorderRef := mediaRecorderRef p;
     toasts := toasts p; spoken := spoken p |}.

Definition with_mediaRecorderRef (v : option RecorderState) (p : Panel)
  : Panel :=
  {| chatState := chatState p; inputMessage := inputMessage p;
     isRecording := isRecording p; clientId := clientId p;
     socketRef := socketRef p; mediaRecorderRef := v;
     toasts := toasts p; spoken := spoken p |}.

Definition with_toasts (v : list (ToastKind * jsstring)) (p : Panel) : Panel :=
  {| chatState := chatState p; inputMessage := inputMessage p;
     isRecording := isRecording p; clientId := clientId p;
     socketRef := socketRef p; mediaRecorderRef := mediaRecorderRef p;
     toasts := v; spoken := spoken p |}.

Definition with_spoken (v : list (jsstring * jsstring)) (p : Panel) : Panel :=
  {| chatState := chatState p; inputMessage := inputMessage p;
     isRecording := isRecording p; clientId := clientId p;
     socketRef := socketRef p; mediaRecorderRef := mediaRecorderRef p;
     toasts := toasts p; spoken := v |}.

(** What the socket of the panel has sent so far. *)
Definition sent (p : Panel) : list (string * Outgoing) :=
  match socketRef p with
  | Some s => outbox s
  | None => []
  end.

(** The effect of one call. [Emit] is only ever issued behind the guard
    [!socketRef.current] of [sendMessage]; without a socket there is
    nothing to send on. *)
Definition exec (e : Effect) (p : Panel) : Panel :=
  match e with
  | SetChatState updater => with_chatState (updater (chatState p)) p
  | SetInputMessage value => with_inputMessage value p
  | SetIsRecording value => with_isRecording value p
  | Emit event body =>
      with_socketRef (option_map (emit event body) (socketRef p)) p
  | Toast kind msg => with_toasts (toasts p ++ [(kind, msg)]) p
  | Speak utterance lang => with_spoken (spoken p ++ [(utterance, lang)]) p
  | StartMediaRecorder => with_mediaRecorderRef (Some recording) p
  | StopMediaRecorder =>
      with_mediaRecorderRef
        (option_map (fun _ => inactive) (mediaRecorderRef p)) p
  end.

Definition run (es : list Effect) (p : Panel) : Panel :=
  fold_left (fun q e => exec e q) es p.

(** *** Handlers *)

(** [addMessage]: [setChatState(prev => ({...prev, messages:
    [...prev.messages, message]}))]. *)
Definition addMessage (message : Message) : list Effect :=
  [SetChatState (fun prev => with_messages (messages prev ++ [message]) prev)].

Definition hasSocket (p : Panel) : bool :=
  match socketRef p with Some _ => true | None => false end.

(** The record [sendMessage] builds for the user's own message. *)
Definition userMessage (env : Env) (message : jsstring) : Message :=
  {| id := random36 env; text := message; sender := user;
     timestamp := newDate env; typing := None; buttons := None;
     quick_replies := None; suggestions := None; metadata := None |}.

(** The object [sendMessage] emits. *)
Definition outgoing (p : Panel) (env : Env) (message : jsstring)
  (payload : option jsstring) : Outgoing :=
  {| out_sender := clientId p; out_message := message;
     out_payload := payload;
     out_metadata := {| out_timestamp := isoNow env;
                        out_language := currentLanguage (chatState p) |} |}.

(** [sendMessage(message, payload?)]. The function is [async] but awaits
    nothing: its body runs to the end within the call. *)
Definition sendMessage (p : Panel) (env : Env) (message : jsstring)
  (payload : option jsstring) : list Effect :=
  if negb (truthy (trim message)) || negb (hasSocket p) then []
  else
    addMessage (userMessage env message) ++
    [ SetInputMessage [];
      SetChatState (with_isTyping true);
      Emit "message" (outgoing p env message payload) ].

Definition handleInputSubmit (p : Panel) (env : Env) : list Effect :=
  sendMessage p env (inputMessage p) None.

Definition handleQuickReply (p : Panel) (env : Env)
  (title payload : jsstring) : list Effect :=
  sendMessage p env title (Some payload).

Definition startRecording (env : Env) : list Effect :=
  if getUserMedia env
  then [ StartMediaRecorder; SetIsRecording true;
         Toast success (lit "Recording started...") ]
  else [ Toast error (lit "Could not access microphone") ].

Definition stopRecording (p : Panel) : list Effect :=
  match mediaRecorderRef p with
  | Some _ =>
      if isRecording p
      then [ StopMediaRecorder; SetIsRecording false;
             Toast success (lit "Recording stopped") ]
      else []
  | None => []
  end.

Definition handleVoiceRecording (p : Panel) (env : Env) : list Effect :=
  if negb (isRecording p) then startRecording env else stopRecording p.

(** Runs on the [stop] event of the recorder. *)
Definition processAudioMessage : list Effect :=
  [ Toast success (lit "Audio message processed") ].

Definition speakText (p : Panel) (env : Env) (text : jsstring)
  : list Effect :=
  if speechSynthesis env
  then [ Speak text (currentLanguage (chatState p)) ]
  else [].

Definition toggleFullscreen : list Effect :=
  [ SetChatState (fun prev => with_isFullscreen (negb (isFullscreen prev)) prev) ].

(** *** The socket listeners of [initializeConnection] *)

(** The text of the welcome message, as the source file has it. *)
Definition welcomeText : jsstring :=
  [240; 376; 8216; 8249]%N ++
  lit " Welcome to ChatBotX! I'm your AI Education Assistant. How can I help you today?".

Definition welcomeMessage (env : Env) : Message :=
  {| id := random36 env; text := welcomeText; sender := bot;
     timestamp := newDate env; typing := None; buttons := None;
     quick_replies := Some
       [ {| title := lit "Browse Courses"; payload := lit "/courses" |};
         {| title := lit "Enrollment Help"; payload := lit "/enrollment" |};
         {| title := lit "FAQ"; payload := lit "/faq" |};
         {| title := lit "Contact Support"; payload := lit "/support" |} ];
     suggestions := None; metadata := None |}.

Definition onConnect : Listener := fun env _ =>
  [ SetChatState (with_isConnected true);
    Toast success (lit "Connected to ChatBotX!") ] ++
  addMessage (welcomeMessage env).

Definition onDisconnect : Listener := fun _ _ =>
  [ SetChatState (with_isConnected false);
    Toast error (lit "Connection lost. Reconnecting...") ].

(** The record the [bot_response] listener builds from its payload. *)
Definition botMessage (env : Env) (data : EventData) : Message :=
  {| id := random36 env; text := data_text data; sender := bot;
     timestamp := newDate env; typing := None;
     buttons := data_buttons data;
     quick_replies := data_quick_replies data;
     suggestions := data_suggestions data;
     metadata := data_metadata data |}.

Definition onBotResponse : Listener := fun env data =>
  [ SetChatState (with_isTyping false) ] ++ addMessage (botMessage env data).

Definition onTyping : Listener := fun _ data =>
  [ SetChatState (with_isTyping (data_is_typing data)) ].

Definition onSystem : Listener := fun _ data =>
  if jseqb (data_message_type data) (lit "error")
  then [ Toast error (data_message data) ]
  else [ Toast success (data_message data) ].

Definition initializeConnection : Socket :=
  on "system" onSystem
    (on "typing" onTyping
       (on "bot_response" onBotResponse
          (on "disconnect" onDisconnect
             (on "connect" onConnect
                (io "ws://localhost:8080" ["websocket"%string]))))).

(** The socket delivers [event] with [data]: every listener registered
    for that name runs, in registration order. *)
Definition dispatch (s : Socket) (event : string) (env : Env)
  (data : EventData) : list Effect :=
  flat_map
    (fun nl : string * Listener =>
       if String.eqb (fst nl) event then snd nl env data else [])
    (listeners s).

(** *** The component as a transition system *)

(** What can happen to a mounted panel: the socket delivers an event, or
    the user acts on one of the controls the panel renders. *)
Inductive Action :=
| SocketEvent (event : string) (data : EventData)
| InputChange (value : jsstring)
| InputSubmit
| QuickReply (title payload : jsstring)
| VoiceRecording
| RecorderStopped
| Listen (text : jsstring)
| ToggleFullscreen
| OpenSettings
| CloseSettings.

Definition handle (env : Env) (a : Action) (p : Panel) : list Effect :=
  match a with
  | SocketEvent event data =>
      match socketRef p with
      | Some s => dispatch s event env data
      | None => []
      end
  | InputChange value => [ SetInputMessage value ]
  | InputSubmit => handleInputSubmit p env
  | QuickReply title payload => handleQuickReply p env title payload
  | VoiceRecording => handleVoiceRecording p env
  | RecorderStopped => processAudioMessage
  | Listen text => speakText p env text
  | ToggleFullscreen => toggleFullscreen
  | OpenSettings => [ SetChatState (with_showSettings true) ]
  | CloseSettings => [ SetChatState (with_showSettings false) ]
  end.

Definition step (env : Env) (a : Action) (p : Panel) : Panel :=
  run (handle env a p) p.

Fixpoint steps (l : list (Env * Action)) (p : Panel) : Panel :=
  match l with
  | [] => p
  | (env, a) :: l' => steps l' (step env a p)
  end.

(** The [useState] initial values; [r] is the [Math.random().toString(36)]
    the client id is cut from. *)
Definition initialChatState : ChatState :=
  {| messages := []; isTyping := false; isConnected := false;
     currentLanguage := lit "en"; isFullscreen := false;
     showSettings := false |}.

Definition init (r : jsstring) : Panel :=
  {| chatState := initialChatState; inputMessage := [];
     isRecording := false; clientId := substr 2 9 r;
     socketRef := None; mediaRecorderRef := None;
     toasts := []; spoken := [] |}.

(** The mount effect: [socketRef.current = io(...)] with its listeners. *)
Definition mount (p : Panel) : Panel :=
  with_socketRef (Some initializeConnection) p.

(** The panel once mounted. *)
Definition start (r : jsstring) : Panel := mount (init r).

Inductive reachable : Panel -> Prop :=
| reach_start r : reachable (start r)
| reach_step env a p : reachable p -> reachable (step env a p).

(** The panel talks to the socket it opened on mount. *)
Definition wired (p : Panel) : Prop :=
  exists s, socketRef p = Some s /\
            listeners s = listeners initializeConnection.

(** *** What the panel renders *)

(** A clickable element and the action its [onClick] triggers. *)
Record Chip := { label : jsstring; onClick : Action }.

(** The element [renderMessage] returns: its React key, on which side it
    sits, the markdown text, the instant whose time is shown, the Listen
    button (bot messages only), and the quick-reply chips and action
    buttons when the record has them. *)
Record MessageView := {
  key : jsstring;
  fromUser : bool;
  markdown : jsstring;
  time : Date;
  listenButton : option Action;
  quickReplyChips : option (list Chip);
  actionButtons : option (list Chip)
}.

Definition chip (b : Button) : Chip :=
  {| label := title b; onClick := QuickReply (title b) (payload b) |}.

Definition renderMessage (message : Message) : MessageView :=
  {| key := id message;
     fromUser := match sender message with user => true | bot => false end;
     markdown := text message;
     time := timestamp message;
     listenButton :=
       match sender message with
       | bot => Some (Listen (text message))
       | user => None
       end;
     quickReplyChips := option_map (map chip) (quick_replies message);
     actionButtons := option_map (map chip) (buttons message) |}.

(** The tree the component returns, reduced to what depends on its state. *)
Record View := {
  fullscreen : bool;
  online : bool;
  messagesArea : list MessageView;
  typingIndicator : bool;
  inputValue : jsstring;
  inputDisabled : bool;
  micActive : bool;
  sendDisabled : bool;
  settingsOpen : bool
}.

Definition render (p : Panel) : View :=
  {| fullscreen := isFullscreen (chatState p);
     online := isConnected (chatState p);
     messagesArea := map renderMessage (messages (chatState p));
     typingIndicator := isTyping (chatState p);
     inputValue := inputMessage p;
     inputDisabled := negb (isConnected (chatState p));
     micActive := isRecording p;
     sendDisabled :=
       negb (truthy (trim (inputMessage p)))
       || negb (isConnected (chatState p));
     settingsOpen := showSettings (chatState p) |}.

(** The names [initializeConnection] registers listeners for. *)
Definition socketEvents : list string :=
  ["connect"; "disconnect"; "bot_response"; "typing"; "system"]%string.

(** *** What one step does to the chat state *)

(** The three summaries below say, action by action, what the handlers
    do to the message list and to the two flags; each is proved against
    [step] further down. *)

(** The records a step appends to the message list. *)
Definition appended (env : Env) (a : Action) (p : Panel) : list Message :=
  match a with
  | SocketEvent event data =>
      if String.eqb event "connect" then [welcomeMessage env]
      else if String.eqb event "bot_response" then [botMessage env data]
      else []
  | InputSubmit =>
      if truthy (trim (inputMessage p)) then [userMessage env (inputMessage p)]
      else []
  | QuickReply title _ =>
      if truthy (trim title) then [userMessage env title] else []
  | _ => []
  end.

(** The value a step writes to the typing flag, if it writes one. *)
Definition typingWrite (a : Action) (p : Panel) : option bool :=
  match a with
  | SocketEvent event data =>
      if String.eqb event "typing" then Some (data_is_typing data)
      else if String.eqb event "bot_response" then Some false
      else None
  | InputSubmit =>
      if truthy (trim (inputMessage p)) then Some true else None
  | QuickReply title _ =>
      if truthy (trim title) then Some true else None
  | _ => None
  end.

(** The value a step writes to the connection flag, if it writes one. *)
Definition connectedWrite (a : Action) : option bool :=
  match a with
  | SocketEvent event _ =>
      if String.eqb event "connect" then Some true
      else if String.eqb event "disconnect" then Some false
      else None
  | _ => None
  end.

(** *** Runs *)

(** The records a run appends, in the order of the steps. *)
Fixpoint appendedAll (l : list (Env * Action)) (p : Panel) : list Message :=
  match l with
  | [] => []
  | (env, a) :: l' => appended env a p ++ appendedAll l' (step env a p)
  end.

(** No step of the run writes the typing flag. *)
Fixpoint typingQuiet (l : list (Env * Action)) (p : Panel) : Prop :=
  match l with
  | [] => True
  | (env, a) :: l' => typingWrite a p = None /\ typingQuiet l' (step env a p)
  end.

(** *** Sample data *)

Definition env0 : Env :=
  {| random36 := lit "0.4fzyo82mvyr"; newDate := 1700000000000%Z;
     isoNow := lit "2023-11-14T22:13:20.000Z";
     speechSynthesis := true; getUserMedia := true |}.

Definition noData : EventData :=
  {| data_text := []; data_buttons := None; data_quick_replies := None;
     data_suggestions := None; data_metadata := None;
     data_is_typing := false; data_message_type := [];
     data_message := [] |}.

(** A fresh panel once the socket has connected: the welcome message is
    on screen with its four quick replies. *)
Definition connected0 : Panel :=
  step env0 (SocketEvent "connect" noData) (start (random36 env0)).

(** A quick reply whose title is a single space, and the payload of a
    bot response that offers it. *)
Definition blankReply : Button :=
  {| title := lit " "; payload := lit "/more" |}.

Definition blankOffer : EventData :=
  {| data_text := lit "More?"; data_buttons := None;
     data_quick_replies := Some [blankReply];
     data_suggestions := None; data_metadata := None;
     data_is_typing := false; data_message_type := [];
     data_message := [] |}.

Definition offered0 : Panel :=
  step env0 (SocketEvent "bot_response" blankOffer) connected0.

Definition faqReply : Button :=
  {| title := lit "FAQ"; payload := lit "/faq" |}.

(** The payload of a [typing] event that turns the indicator on. *)
Definition typingOn : EventData :=
  {| data_text := []; data_buttons := None; data_quick_replies := None;
     data_suggestions := None; data_metadata := None;
     data_is_typing := true; data_message_type := [];
     data_message := [] |}.

(** *** Further summaries, each proved against [step] further down *)

Definition isUser (m : Message) : bool :=
  match sender m with user => true | bot => false end.

(** What a step hands to [socket.emit]. *)
Definition emitted (env : Env) (a : Action) (p : Panel)
  : list (string * Outgoing) :=
  match a with
  | InputSubmit =>
      if truthy (trim (inputMessage p))
      then [("message"%string, outgoing p env (inputMessage p) None)]
      else []
  | QuickReply title payload =>
      if truthy (trim title)
      then [("message"%string, outgoing p env title (Some payload))]
      else []
  | _ => []
  end.

(** A record with none of the optional fields of [Message]. *)
Definition bare (m : Message) : Prop :=
  typing m = None /\ buttons m = None /\ quick_replies m = None
  /\ suggestions m = None /\ metadata m = None.

(** The payload of a [system] event that reports an error. *)
Definition systemError : EventData :=
  {| data_text := []; data_buttons := None; data_quick_replies := None;
     data_suggestions := None; data_metadata := None;
     data_is_typing := false; data_message_type := lit "error";
     data_message := lit "Server busy" |}.

(** The connected panel with a draft typed into the input field. *)
Definition drafted0 : Panel :=
  step env0 (InputChange (lit "what about fees")) connected0.

End ChatInterface.

(* ===================================================================== *)
(** ** The chat slice: [store/slices/chatSlice.ts] *)
(* ===================================================================== *)

Module ChatSlice.
Import JS.

Record Button := { title : jsstring; payload : jsstring }.

Inductive Sender := user | bot.

Definition Date := Z.

Record Message := {
  id : jsstring;
  text : jsstring;
  sender : Sender;
  timestamp : Date;
  buttons : option (list Button);
  quick_replies : option (list Button);
  suggestions : option (list jsstring);
  metadata : option any
}.

Record ChatState := {
  messages : list Message;
  isTyping : bool;
  isConnected : bool;
  currentLanguage : jsstring;
  sessionId : option jsstring;
  conversationHistory : list Message
}.

Definition initialState : ChatState :=
  {| messages := []; isTyping := false; isConnected := false;
     currentLanguage := lit "en"; sessionId := None;
     conversationHistory := [] |}.

(** The actions the store can hand to the reducer of the slice: the seven
    of [chatSlice.actions], and [other] for an action of any other type,
    which the reducer built by [createSlice] ignores. *)
Inductive Action :=
| addMessage (payload : Message)
| setTyping (payload : bool)
| setConnected (payload : bool)
| setLanguage (payload : jsstring)
| setSessionId (payload : jsstring)
| clearMessages
| clearHistory
| other (type : string).

(** [chatSlice.reducer]; the case reducers write to an Immer draft, the
    result is the state with those writes applied. *)
Definition reducer (state : ChatState) (action : Action) : ChatState :=
  match action with
  | addMessage payload =>
      {| messages := messages state ++ [payload];
         isTyping := isTyping state; isConnected := isConnected state;
         currentLanguage := currentLanguage state;
         sessionId := sessionId state;
         conversationHistory := conversationHistory state ++ [payload] |}
  | setTyping payload =>
      {| messages := messages state;
         isTyping := payload; isConnected := isConnected state;
         currentLanguage := currentLanguage state;
         sessionId := sessionId state;
         conversationHistory := conversationHistory state |}
  | setConnected payload =>
      {| messages := messages state;
         isTyping := isTyping state; isConnected := payload;
         currentLanguage := currentLanguage state;
         sessionId := sessionId state;
         conversationHistory := conversationHistory state |}
  | setLanguage payload =>
      {| messages := messages state;
         isTyping := isTyping state; isConnected := isConnected state;
         currentLanguage := payload;
         sessionId := sessionId state;
         conversationHistory := conversationHistory state |}
  | setSessionId payload =>
      {| messages := messages state;
         isTyping := isTyping state; isConnected := isConnected state;
         currentLanguage := currentLanguage state;
         sessionId := Some payload;
         conversationHistory := conversationHistory state |}
  | clearMessages =>
      {| messages := [];
         isTyping := isTyping state; isConnected := isConnected state;
         currentLanguage := currentLanguage state;
         sessionId := sessionId state;
         conversationHistory := conversationHistory state |}
  | clearHistory =>
      {| messages := messages state;
         isTyping := isTyping state; isConnected := isConnected state;
         currentLanguage := currentLanguage state;
         sessionId := sessionId state;
         conversationHistory := [] |}
  | other _ => state
  end.

(** The state after a sequence of dispatched actions. *)
Definition reduce (actions : list Action) (state : ChatState) : ChatState :=
  fold_left reducer actions state.

Definition isClear (a : Action) : bool :=
  match a with
  | clearMessages | clearHistory => true
  | _ => false
  end.

(** *** Sample data *)

Definition hello : Message :=
  {| id := lit "0.k2j5"; text := lit "hello"; sender := user;
     timestamp := 1700000000000%Z; buttons := None; quick_replies := None;
     suggestions := None; metadata := None |}.

(** The slice with one message in it. *)
Definition greeted : ChatState := reducer initialState (addMessage hello).

End ChatSlice.

(* ===================================================================== *)
(** ** The courses slice: [store/slices/coursesSlice.ts] *)
(* ===================================================================== *)

Module CoursesSlice.
Import JS.

(** A [number] is an IEEE 754 double. *)
Definition number := float.

Inductive Level := beginner | intermediate | advanced.

Inductive Status := active | inactive | draft.

(** The string a [Level] is. *)
Definition levelString (l : Level) : jsstring :=
  match l with
  | beginner => lit "beginner"
  | intermediate => lit "intermediate"
  | advanced => lit "advanced"
  end.

Record Course := {
  id : jsstring;
  course_code : jsstring;
  title : jsstring;
  description : jsstring;
  category : jsstring;
  duration : jsstring;
  price : number;
  currency : jsstring;
  level : Level;
  status : Status;
  max_students : number;
  enrolled_students : number;
  instructor : jsstring;
  start_date : jsstring;
  end_date : jsstring;
  schedule : jsstring;
  created_at : jsstring;
  updated_at : jsstring
}.

Record Filters := {
  f_category : jsstring;
  f_level : jsstring;
  priceRange : number * number;
  searchQuery : jsstring
}.

Record Pagination := {
  page : number;
  limit : number;
  total : number
}.

Record CoursesState := {
  courses : list Course;
  filteredCourses : list Course;
  selectedCourse : option Course;
  categories : list jsstring;
  isLoading : bool;
  error : option jsstring;
  filters : Filters;
  pagination : Pagination
}.

Definition defaultFilters : Filters :=
  {| f_category := []; f_level := [];
     priceRange := (0%float, 1000%float); searchQuery := [] |}.

Definition initialState : CoursesState :=
  {| courses := []; filteredCourses := []; selectedCourse := None;
     categories := []; isLoading := false; error := None;
     filters := defaultFilters;
     pagination := {| page := 1%float; limit := 12%float;
                      total := 0%float |} |}.

(** [array.length] as a number. *)
Definition lengthOf {A : Type} (l : list A) : number :=
  PrimFloat.of_uint63 (Uint63.of_Z (Z.of_nat (List.length l))).

(** [a >= b] and [a <= b] on numbers: false as soon as one side is NaN. *)
Definition geq (a b : number) : bool := PrimFloat.leb b a.
Definition leq (a b : number) : bool := PrimFloat.leb a b.

(** The payloads of [setFilters] and [setPagination]: a [Partial] object,
    a field that is absent is [None]. *)
Record PartialFilters := {
  set_category : option jsstring;
  set_level : option jsstring;
  set_priceRange : option (number * number);
  set_searchQuery : option jsstring
}.

Record PartialPagination := {
  set_page : option number;
  set_limit : option number;
  set_total : option number
}.

Definition orKeep {A : Type} (new : option A) (old : A) : A :=
  match new with Some v => v | None => old end.

Section Reducers.

(** [String.prototype.toLowerCase], which the search filter calls on the
    query and on three fields of each course. *)
Variable toLowerCase : jsstring -> jsstring.

Definition setCourses (payload : list Course) (state : CoursesState)
  : CoursesState :=
  {| courses := payload; filteredCourses := payload;
     selectedCourse := selectedCourse state;
     categories := categories state; isLoading := false; error := None;
     filters := filters state; pagination := pagination state |}.

Definition setSelectedCourse (payload : Course) (state : CoursesState)
  : CoursesState :=
  {| courses := courses state; filteredCourses := filteredCourses state;
     selectedCourse := Some payload;
     categories := categories state; isLoading := isLoading state;
     error := error state; filters := filters state;
     pagination := pagination state |}.

Definition setCategories (payload : list jsstring) (state : CoursesState)
  : CoursesState :=
  {| courses := courses state; filteredCourses := filteredCourses state;
     selectedCourse := selectedCourse state;
     categories := payload; isLoading := isLoading state;
     error := error state; filters := filters state;
     pagination := pagination state |}.

Definition setLoading (payload : bool) (state : CoursesState)
  : CoursesState :=
  {| courses := courses state; filteredCourses := filteredCourses state;
     selectedCourse := selectedCourse state;
     categories := categories state; isLoading := payload;
     error := error state; filters := filters state;
     pagination := pagination state |}.

Definition setError (payload : jsstring) (state : CoursesState)
  : CoursesState :=
  {| courses := courses state; filteredCourses := filteredCourses state;
     selectedCourse := selectedCourse state;
     categories := categories state; isLoading := false;
     error := Some payload; filters := filters state;
     pagination := pagination state |}.

Definition setFilters (payload : PartialFilters) (state : CoursesState)
  : CoursesState :=
  {| courses := courses state; filteredCourses := filteredCourses state;
     selectedCourse := selectedCourse state;
     categories := categories state; isLoading := isLoading state;
     error := error state;
     filters :=
       {| f_category := orKeep (set_category payload)
                               (f_category (filters state));
          f_level := orKeep (set_level payload) (f_level (filters state));
          priceRange := orKeep (set_priceRange payload)
                               (priceRange (filters state));
          searchQuery := orKeep (set_searchQuery payload)
                                (searchQuery (filters state)) |};
     pagination := pagination state |}.

Definition setPagination (payload : PartialPagination)
  (state : CoursesState) : CoursesState :=
  {| courses := courses state; filteredCourses := filteredCourses state;
     selectedCourse := selectedCourse state;
     categories := categories state; isLoading := isLoading state;
     error := error state; filters := filters state;
     pagination :=
       {| page := orKeep (set_page payload) (page (pagination state));
          limit := orKeep (set_limit payload) (limit (pagination state));
          total := orKeep (set_total payload) (total (pagination state)) |} |}.

(** The array [filtered] at the end of [filterCourses]. *)
Definition filtered (state : CoursesState) : list Course :=
  let filtered0 := courses state in
  (* Filter by category *)
  let filtered1 :=
    if truthy (f_category (filters state))
    then filter (fun course =>
                   jseqb (category course) (f_category (filters state)))
                filtered0
    else filtered0 in
  (* Filter by level *)
  let filtered2 :=
    if truthy (f_level (filters state))
    then filter (fun course =>
                   jseqb (levelString (level course))
                         (f_level (filters state)))
                filtered1
    else filtered1 in
  (* Filter by price range *)
  let filtered3 :=
    filter (fun course =>
              geq (price course) (fst (priceRange (filters state)))
              && leq (price course) (snd (priceRange (filters state))))
           filtered2 in
  (* Filter by search query *)
  if truthy (searchQuery (filters state))
  then
    let query := toLowerCase (searchQuery (filters state)) in
    filter (fun course =>
              includes (toLowerCase (title course)) query
              || includes (toLowerCase (description course)) query
              || includes (toLowerCase (instructor course)) query)
           filtered3
  else filtered3.

Definition filterCourses (state : CoursesState) : CoursesState :=
  {| courses := courses state; filteredCourses := filtered state;
     selectedCourse := selectedCourse state;
     categories := categories state; isLoading := isLoading state;
     error := error state; filters := filters state;
     pagination :=
       {| page := page (pagination state);
          limit := limit (pagination state);
          total := lengthOf (filtered state) |} |}.

Definition clearFilters (state : CoursesState) : CoursesState :=
  {| courses := courses state; filteredCourses := courses state;
     selectedCourse := selectedCourse state;
     categories := categories state; isLoading := isLoading state;
     error := error state; filters := defaultFilters;
     pagination := pagination state |}.

(** *** The filter as the specification words it *)

(** The price lies within the range, bounds included. *)
Definition priceWithin (range : number * number) (course : Course) : bool :=
  leq (fst range) (price course) && leq (price course) (snd range).

(** The course matches the category filter when one is set. *)
Definition categoryMatches (f : Filters) (course : Course) : bool :=
  match f_category f with
  | [] => true
  | _ :: _ => jseqb (category course) (f_category f)
  end.

(** The course matches the level filter when one is set. *)
Definition levelMatches (f : Filters) (course : Course) : bool :=
  match f_level f with
  | [] => true
  | _ :: _ => jseqb (levelString (level course)) (f_level f)
  end.

(** The course matches the search query when one is set: the query, case
    folded, occurs in the title, the description or the instructor. *)
Definition searchMatches (f : Filters) (course : Course) : bool :=
  match searchQuery f with
  | [] => true
  | _ :: _ =>
      existsb (fun field => includes (toLowerCase field)
                                     (toLowerCase (searchQuery f)))
              [title course; description course; instructor course]
  end.

Definition selected (f : Filters) (course : Course) : bool :=
  priceWithin (priceRange f) course
  && categoryMatches f course
  && levelMatches f course
  && searchMatches f course.

End Reducers.

(** Filters with only a price range set. *)
Definition priceOnly (range : number * number) : Filters :=
  {| f_category := []; f_level := []; priceRange := range;
     searchQuery := [] |}.

Definition with_filters (f : Filters) (state : CoursesState) : CoursesState :=
  {| courses := courses state; filteredCourses := filteredCourses state;
     selectedCourse := selectedCourse state;
     categories := categories state; isLoading := isLoading state;
     error := error state; filters := f; pagination := pagination state |}.

(** [l1] is [l2] with some elements left out, the others in their
    order. *)
Inductive subsequence {A : Type} : list A -> list A -> Prop :=
| sub_nil : subsequence [] []
| sub_skip x l1 l2 : subsequence l1 l2 -> subsequence l1 (x :: l2)
| sub_keep x l1 l2 : subsequence l1 l2 -> subsequence (x :: l1) (x :: l2).

(** *** Sample data *)

(** Lower-casing of the ASCII letters; on strings of ASCII characters it
    is what [toLowerCase] does. *)
Definition asciiLower (s : jsstring) : jsstring :=
  map (fun c => if (65 <=? c) && (c <=? 90) then c + 32 else c)%N s.

Definition course (name cat teacher : string) (l : Level) (p : number)
  : Course :=
  {| id := lit name; course_code := lit name; title := lit name;
     description := []; category := lit cat; duration := lit "8 weeks";
     price := p; currency := lit "USD"; level := l; status := active;
     max_students := 30%float; enrolled_students := 0%float;
     instructor := lit teacher; start_date := []; end_date := [];
     schedule := []; created_at := []; updated_at := [] |}.

Definition catalogue : list Course :=
  [ course "Python Basics" "programming" "Ada" beginner 199%float;
    course "Deep Learning" "data" "Grace" advanced 1499%float;
    course "SQL for Analysts" "data" "Edgar" intermediate 1000%float;
    course "Free Taster" "programming" "Ada" beginner 0%float ].

Definition loaded : CoursesState := setCourses catalogue initialState.

(** *** The reducer of the slice *)

(** The actions the store can hand to the reducer: the nine of
    [coursesSlice.actions], and [Other] for an action of any other type. *)
Inductive Action :=
| SetCourses (payload : list Course)
| SetSelectedCourse (payload : Course)
| SetCategories (payload : list jsstring)
| SetLoading (payload : bool)
| SetError (payload : jsstring)
| SetFilters (payload : PartialFilters)
| SetPagination (payload : PartialPagination)
| FilterCourses
| ClearFilters
| Other (type : string).

Definition reducer (toLowerCase : jsstring -> jsstring)
  (state : CoursesState) (action : Action) : CoursesState :=
  match action with
  | SetCourses payload => setCourses payload state
  | SetSelectedCourse payload => setSelectedCourse payload state
  | SetCategories payload => setCategories payload state
  | SetLoading payload => setLoading payload state
  | SetError payload => setError payload state
  | SetFilters payload => setFilters payload state
  | SetPagination payload => setPagination payload state
  | FilterCourses => filterCourses toLowerCase state
  | ClearFilters => clearFilters state
  | Other _ => state
  end.

Definition reduce (toLowerCase : jsstring -> jsstring)
  (actions : list Action) (state : CoursesState) : CoursesState :=
  fold_left (reducer toLowerCase) actions state.

(** [{ ...a, ...b }] on two partial filter objects. *)
Definition spread (a b : PartialFilters) : PartialFilters :=
  {| set_category :=
       match set_category b with Some v => Some v | None => set_category a end;
     set_level :=
       match set_level b with Some v => Some v | None => set_level a end;
     set_priceRange :=
       match set_priceRange b with
       | Some v => Some v
       | None => set_priceRange a
       end;
     set_searchQuery :=
       match set_searchQuery b with
       | Some v => Some v
       | None => set_searchQuery a
       end |}.

Definition levelNames : list jsstring :=
  [lit "beginner"; lit "intermediate"; lit "advanced"].

(** The sample catalogue filtered by level alone. *)
Definition levelFiltered (name : string) : CoursesState :=
  filterCourses asciiLower
    (setFilters {| set_category := None; set_level := Some (lit name);
                   set_priceRange := None; set_searchQuery := None |}
       loaded).

End CoursesSlice.

(* ===================================================================== *)
(** ** The user slice: [store/slices/userSlice.ts] *)
(* ===================================================================== *)

Module UserSlice.
Import JS.

Inductive Role := student | admin | instructor.

Inductive Theme := light | dark.

Record Preferences := {
  language : jsstring;
  theme : Theme;
  notifications : bool
}.

Record User := {
  id : jsstring;
  name : jsstring;
  email : jsstring;
  role : Role;
  preferences : Preferences;
  enrollments : list jsstring;
  created_at : jsstring
}.

Record UserState := {
  currentUser : option User;
  isAuthenticated : bool;
  isLoading : bool;
  error : option jsstring
}.

Definition initialState : UserState :=
  {| currentUser := None; isAuthenticated := false; isLoading := false;
     error := None |}.

(** [Partial<User['preferences']>]: a field that is absent is [None]. *)
Record PartialPreferences := {
  set_language : option jsstring;
  set_theme : option Theme;
  set_notifications : option bool
}.

Definition orKeep {A : Type} (new : option A) (old : A) : A :=
  match new with Some v => v | None => old end.

(** [{ ...preferences, ...payload }] *)
Definition mergePreferences (payload : PartialPreferences)
  (old : Preferences) : Preferences :=
  {| language := orKeep (set_language payload) (language old);
     theme := orKeep (set_theme payload) (theme old);
     notifications := orKeep (set_notifications payload) (notifications old) |}.

Definition with_preferences (v : Preferences) (u : User) : User :=
  {| id := id u; name := name u; email := email u; role := role u;
     preferences := v; enrollments := enrollments u;
     created_at := created_at u |}.

Inductive Action :=
| setUser (payload : User)
| clearUser
| setLoading (payload : bool)
| setError (payload : jsstring)
| updateUserPreferences (payload : PartialPreferences)
| other (type : string).

Definition reducer (state : UserState) (action : Action) : UserState :=
  match action with
  | setUser payload =>
      {| currentUser := Some payload; isAuthenticated := true;
         isLoading := false; error := None |}
  | clearUser =>
      {| currentUser := None; isAuthenticated := false;
         isLoading := false; error := None |}
  | setLoading payload =>
      {| currentUser := currentUser state;
         isAuthenticated := isAuthenticated state;
         isLoading := payload; error := error state |}
  | setError payload =>
      {| currentUser := currentUser state;
         isAuthenticated := isAuthenticated state;
         isLoading := false; error := Some payload |}
  | updateUserPreferences payload =>
      match currentUser state with
      | Some u =>
          {| currentUser :=
               Some (with_preferences
                       (mergePreferences payload (preferences u)) u);
             isAuthenticated := isAuthenticated state;
             isLoading := isLoading state; error := error state |}
      | None => state
      end
  | other _ => state
  end.

Definition reduce (actions : list Action) (state : UserState) : UserState :=
  fold_left reducer actions state.

(** Whether a user is held in [currentUser]. *)
Definition signedIn (state : UserState) : bool :=
  match currentUser state with Some _ => true | None => false end.

(** *** Sample data *)

Definition ada : User :=
  {| id := lit "u1"; name := lit "Ada"; email := lit "ada@example.org";
     role := student;
     preferences := {| language := lit "en"; theme := light;
                       notifications := true |};
     enrollments := [lit "PY101"]; created_at := lit "2024-01-01" |}.

Definition darkOnly : PartialPreferences :=
  {| set_language := None; set_theme := Some dark;
     set_notifications := None |}.

End UserSlice.

(* ===================================================================== *)
(** ** The ui slice: [store/slices/uiSlice.ts] *)
(* ===================================================================== *)

Module UiSlice.
Import JS.

Inductive Theme := light | dark.

Inductive NotificationType := success | error | warning | info.

Definition Date := Z.

Record Notification := {
  id : jsstring;
  type : NotificationType;
  message : jsstring;
  timestamp : Date
}.

(** The payload of [addNotification]: a notification without [id] and
    [timestamp]. *)
Record NotificationPayload := {
  payload_type : NotificationType;
  payload_message : jsstring
}.

Record Modals := {
  settingsOpen : bool;
  helpOpen : bool;
  feedbackOpen : bool
}.

(** [keyof UIState['modals']] *)
Inductive ModalName := settingsModal | helpModal | feedbackModal.

Record ChatSettings := {
  soundEnabled : bool;
  notificationsEnabled : bool;
  autoScroll : bool;
  compactMode : bool
}.

Record PartialChatSettings := {
  set_soundEnabled : option bool;
  set_notificationsEnabled : option bool;
  set_autoScroll : option bool;
  set_compactMode : option bool
}.

Record UIState := {
  theme : Theme;
  sidebarOpen : bool;
  loading : bool;
  notifications : list Notification;
  modals : Modals;
  chatSettings : ChatSettings
}.

Definition initialState : UIState :=
  {| theme := light; sidebarOpen := false; loading := false;
     notifications := [];
     modals := {| settingsOpen := false; helpOpen := false;
                  feedbackOpen := false |};
     chatSettings := {| soundEnabled := true; notificationsEnabled := true;
                        autoScroll := true; compactMode := false |} |}.

(** What [addNotification] reads from outside:
    [Math.random().toString(36)] and [new Date()]. *)
Record Env := {
  random36 : jsstring;
  newDate : Date
}.

Definition orKeep {A : Type} (new : option A) (old : A) : A :=
  match new with Some v => v | None => old end.

Definition with_notifications (v : list Notification) (state : UIState)
  : UIState :=
  {| theme := theme state; sidebarOpen := sidebarOpen state;
     loading := loading state; notifications := v;
     modals := modals state; chatSettings := chatSettings state |}.

(** [state.modals[modal] = open] *)
Definition setModal (modal : ModalName) (open : bool) (m : Modals) : Modals :=
  match modal with
  | settingsModal =>
      {| settingsOpen := open; helpOpen := helpOpen m;
         feedbackOpen := feedbackOpen m |}
  | helpModal =>
      {| settingsOpen := settingsOpen m; helpOpen := open;
         feedbackOpen := feedbackOpen m |}
  | feedbackModal =>
      {| settingsOpen := settingsOpen m; helpOpen := helpOpen m;
         feedbackOpen := open |}
  end.

(** [state.modals[modal]] *)
Definition getModal (modal : ModalName) (m : Modals) : bool :=
  match modal with
  | settingsModal => settingsOpen m
  | helpModal => helpOpen m
  | feedbackModal => feedbackOpen m
  end.

Inductive Action :=
| setTheme (payload : Theme)
| toggleSidebar
| setSidebarOpen (payload : bool)
| setLoading (payload : bool)
| addNotification (payload : NotificationPayload)
| removeNotification (payload : jsstring)
| clearNotifications
| setModalOpen (modal : ModalName) (open : bool)
| updateChatSettings (payload : PartialChatSettings)
| other (name : string).

Definition reducer (env : Env) (state : UIState) (action : Action)
  : UIState :=
  match action with
  | setTheme payload =>
      {| theme := payload; sidebarOpen := sidebarOpen state;
         loading := loading state; notifications := notifications state;
         modals := modals state; chatSettings := chatSettings state |}
  | toggleSidebar =>
      {| theme := theme state; sidebarOpen := negb (sidebarOpen state);
         loading := loading state; notifications := notifications state;
         modals := modals state; chatSettings := chatSettings state |}
  | setSidebarOpen payload =>
      {| theme := theme state; sidebarOpen := payload;
         loading := loading state; notifications := notifications state;
         modals := modals state; chatSettings := chatSettings state |}
  | setLoading payload =>
      {| theme := theme state; sidebarOpen := sidebarOpen state;
         loading := payload; notifications := notifications state;
         modals := modals state; chatSettings := chatSettings state |}
  | addNotification payload =>
      let notification :=
        {| id := random36 env; type := payload_type payload;
           message := payload_message payload; timestamp := newDate env |} in
      with_notifications (notifications state ++ [notification]) state
  | removeNotification payload =>
      with_notifications
        (filter (fun n => negb (jseqb (id n) payload)) (notifications state))
        state
  | clearNotifications => with_notifications [] state
  | setModalOpen modal open =>
      {| theme := theme state; sidebarOpen := sidebarOpen state;
         loading := loading state; notifications := notifications state;
         modals := setModal modal open (modals state);
         chatSettings := chatSettings state |}
  | updateChatSettings payload =>
      {| theme := theme state; sidebarOpen := sidebarOpen state;
         loading := loading state; notifications := notifications state;
         modals := modals state;
         chatSettings :=
           {| soundEnabled := orKeep (set_soundEnabled payload)
                                (soundEnabled (chatSettings state));
              notificationsEnabled :=
                orKeep (set_notificationsEnabled payload)
                  (notificationsEnabled (chatSettings state));
              autoScroll := orKeep (set_autoScroll payload)
                              (autoScroll (chatSettings state));
              compactMode := orKeep (set_compactMode payload)
                               (compactMode (chatSettings state)) |} |}
  | other _ => state
  end.

(** *** Sample data *)

Definition env1 : Env :=
  {| random36 := lit "0.9x1c"; newDate := 1700000000000%Z |}.

Definition saved : NotificationPayload :=
  {| payload_type := success; payload_message := lit "Saved" |}.

End UiSlice.

(* ===================================================================== *)
(** ** Properties of the JavaScript fragments *)
(* ===================================================================== *)

Section JSFacts.
Import JS.

Lemma trimStart_nil_iff s :
  trimStart s = [] <-> forallb isWhiteSpace s = true.
Proof.
  induction s as [|c r IH]; simpl.
  - tauto.
  - destruct (isWhiteSpace c); simpl.
    + exact IH.
    + split; discriminate.
Qed.

(** A string trims to the empty string exactly when it is made of white
    space only. *)
Lemma trim_nil_iff s : trim s = [] <-> forallb isWhiteSpace s = true.
Proof.
  unfold trim, trimEnd. split.
  - intros H. apply trimStart_nil_iff.
    destruct (trimStart s) as [|c r] eqn:E; [reflexivity|].
    exfalso.
    assert (Hr : trimStart (rev (c :: r)) = []).
    { apply (f_equal (@rev N)) in H. rewrite rev_involutive in H. exact H. }
    apply trimStart_nil_iff in Hr.
    rewrite forallb_forall in Hr.
    assert (Hc : isWhiteSpace c = true).
    { apply Hr. apply in_rev. rewrite rev_involutive. left. reflexivity. }
    clear H Hr. revert E. induction s as [|d s IH]; simpl; [discriminate|].
    destruct (isWhiteSpace d) eqn:Ed; [exact IH|].
    intros E. injection E as -> _. congruence.
  - intros H. apply trimStart_nil_iff in H. rewrite H. reflexivity.
Qed.

Lemma truthy_false_iff s : truthy s = false <-> s = [].
Proof. destruct s; simpl; split; congruence. Qed.

End JSFacts.

(* ===================================================================== *)
(** ** Properties of the chat panel *)
(* ===================================================================== *)

Section ChatPanel.
Import JS ChatInterface.

(** *** Basic facts *)

Lemma run_app es1 es2 p : run (es1 ++ es2) p = run es2 (run es1 p).
Proof. unfold run. apply fold_left_app. Qed.

Lemma steps_app l1 l2 p : steps (l1 ++ l2) p = steps l2 (steps l1 p).
Proof.
  revert p. induction l1 as [|[env a] l1 IH]; intros p; simpl.
  - reflexivity.
  - apply IH.
Qed.

(** On the socket of the panel, an event runs the one listener registered
    under its name, and nothing when the name is not one of the five. *)
Lemma dispatch_cases s event env data :
  listeners s = listeners initializeConnection ->
  (event = "connect"%string /\ dispatch s event env data = onConnect env data)
  \/ (event = "disconnect"%string
      /\ dispatch s event env data = onDisconnect env data)
  \/ (event = "bot_response"%string
      /\ dispatch s event env data = onBotResponse env data)
  \/ (event = "typing"%string
      /\ dispatch s event env data = onTyping env data)
  \/ (event = "system"%string
      /\ dispatch s event env data = onSystem env data)
  \/ (~ In event socketEvents /\ dispatch s event env data = []).
Proof.
  intros H. unfold dispatch. rewrite H. clear H s.
  destruct (String.eqb_spec "connect" event) as [<-|N1].
  { left. split; [reflexivity|]. simpl. repeat rewrite app_nil_r. reflexivity. }
  destruct (String.eqb_spec "disconnect" event) as [<-|N2].
  { right; left. split; [reflexivity|]. simpl. reflexivity. }
  destruct (String.eqb_spec "bot_response" event) as [<-|N3].
  { do 2 right; left. split; [reflexivity|]. simpl. reflexivity. }
  destruct (String.eqb_spec "typing" event) as [<-|N4].
  { do 3 right; left. split; [reflexivity|]. simpl. reflexivity. }
  destruct (String.eqb_spec "system" event) as [<-|N5].
  { do 4 right; left. split; [reflexivity|]. simpl.
    rewrite app_nil_r. reflexivity. }
  do 5 right. split.
  - simpl. intuition congruence.
  - apply String.eqb_neq in N1, N2, N3, N4, N5.
    unfold initializeConnection, on, io.
    cbn [listeners app flat_map fst snd].
    rewrite N1, N2, N3, N4, N5. reflexivity.
Qed.

Lemma exec_listeners e p s :
  socketRef p = Some s ->
  exists s', socketRef (exec e p) = Some s' /\ listeners s' = listeners s.
Proof.
  intros H. destruct e; simpl; rewrite ?H; simpl; eauto.
Qed.

Lemma exec_wired e p : wired p -> wired (exec e p).
Proof.
  intros [s [Hs Hl]].
  destruct (exec_listeners e p s Hs) as [s' [Hs' Hl']].
  exists s'. split; [exact Hs'|congruence].
Qed.

Lemma run_wired es p : wired p -> wired (run es p).
Proof.
  revert p. induction es as [|e es IH]; intros p H; simpl.
  - exact H.
  - apply IH. apply exec_wired. exact H.
Qed.

Lemma start_wired r : wired (start r).
Proof. exists initializeConnection. split; reflexivity. Qed.

(** Every state the mounted panel goes through is wired to the listeners
    of [initializeConnection]. *)
Lemma reachable_wired p : reachable p -> wired p.
Proof.
  induction 1 as [r|env a p _ IH].
  - apply start_wired.
  - apply run_wired. exact IH.
Qed.

Lemma reachable_steps l p : reachable p -> reachable (steps l p).
Proof.
  revert p. induction l as [|[env a] l IH]; intros p H; simpl.
  - exact H.
  - apply IH. constructor. exact H.
Qed.

Lemma wired_hasSocket p : wired p -> hasSocket p = true.
Proof. intros [s [Hs _]]. unfold hasSocket. rewrite Hs. reflexivity. Qed.

Ltac socket_cases H s event env data :=
  let Hs := fresh "Hs" in
  let Hl := fresh "Hl" in
  let N := fresh "N" in
  destruct H as [s [Hs Hl]];
  unfold step, handle; rewrite Hs;
  destruct (dispatch_cases s event env data Hl)
    as [[-> ->]|[[-> ->]|[[-> ->]|[[-> ->]|[[-> ->]|[N ->]]]]]].

Ltac send_cases H m :=
  unfold step, handle, handleInputSubmit, handleQuickReply, sendMessage;
  cbn [appended typingWrite connectedWrite];
  rewrite (wired_hasSocket _ H);
  destruct (truthy (trim m)); cbn.

Lemma not_socketEvent_eqb event name :
  ~ In event socketEvents -> In name socketEvents ->
  String.eqb event name = false.
Proof.
  intros N I. apply String.eqb_neq. intros ->. exact (N I).
Qed.

Ltac off_socket N :=
  rewrite ?(not_socketEvent_eqb _ "connect" N),
          ?(not_socketEvent_eqb _ "disconnect" N),
          ?(not_socketEvent_eqb _ "bot_response" N),
          ?(not_socketEvent_eqb _ "typing" N),
          ?(not_socketEvent_eqb _ "system" N)
    by (cbn; tauto).

Lemma step_messages env a p :
  wired p ->
  messages (chatState (step env a p))
  = messages (chatState p) ++ appended env a p.
Proof.
  intros H. destruct a as [event data|v| |t pl| | |t| | | ].
  - socket_cases H s event env data; cbn; try reflexivity.
    + now rewrite app_nil_r.
    + now rewrite app_nil_r.
    + unfold onSystem. destruct (jseqb _ _); cbn; now rewrite app_nil_r.
    + off_socket N. cbn. now rewrite app_nil_r.
  - cbn. now rewrite app_nil_r.
  - send_cases H (inputMessage p); [reflexivity|now rewrite app_nil_r].
  - send_cases H t; [reflexivity|now rewrite app_nil_r].
  - unfold step, handle, handleVoiceRecording, startRecording, stopRecording.
    destruct (isRecording p), (getUserMedia env), (mediaRecorderRef p);
      cbn; now rewrite app_nil_r.
  - cbn. now rewrite app_nil_r.
  - unfold step, handle, speakText.
    destruct (speechSynthesis env); cbn; now rewrite app_nil_r.
  - cbn. now rewrite app_nil_r.
  - cbn. now rewrite app_nil_r.
  - cbn. now rewrite app_nil_r.
Qed.

Lemma step_isTyping env a p :
  wired p ->
  isTyping (chatState (step env a p))
  = match typingWrite a p with
    | Some b => b
    | None => isTyping (chatState p)
    end.
Proof.
  intros H. destruct a as [event data|v| |t pl| | |t| | | ].
  - socket_cases H s event env data; cbn; try reflexivity.
    + unfold onSystem. destruct (jseqb _ _); reflexivity.
    + off_socket N. reflexivity.
  - reflexivity.
  - send_cases H (inputMessage p); reflexivity.
  - send_cases H t; reflexivity.
  - unfold step, handle, handleVoiceRecording, startRecording, stopRecording.
    destruct (isRecording p), (getUserMedia env), (mediaRecorderRef p);
      reflexivity.
  - reflexivity.
  - unfold step, handle, speakText.
    destruct (speechSynthesis env); reflexivity.
  - reflexivity.
  - reflexivity.
  - reflexivity.
Qed.

Lemma step_isConnected env a p :
  wired p ->
  isConnected (chatState (step env a p))
  = match connectedWrite a with
    | Some b => b
    | None => isConnected (chatState p)
    end.
Proof.
  intros H. destruct a as [event data|v| |t pl| | |t| | | ].
  - socket_cases H s event env data; cbn; try reflexivity.
    + unfold onSystem. destruct (jseqb _ _); reflexivity.
    + off_socket N. reflexivity.
  - reflexivity.
  - send_cases H (inputMessage p); reflexivity.
  - send_cases H t; reflexivity.
  - unfold step, handle, handleVoiceRecording, startRecording, stopRecording.
    destruct (isRecording p), (getUserMedia env), (mediaRecorderRef p);
      reflexivity.
  - reflexivity.
  - unfold step, handle, speakText.
    destruct (speechSynthesis env); reflexivity.
  - reflexivity.
  - reflexivity.
  - reflexivity.
Qed.

Lemma steps_messages l p :
  reachable p ->
  messages (chatState (steps l p))
  = messages (chatState p) ++ appendedAll l p.
Proof.
  revert p. induction l as [|[env a] l IH]; intros p H; simpl.
  - now rewrite app_nil_r.
  - rewrite IH by (constructor; exact H).
    rewrite step_messages by (apply reachable_wired; exact H).
    now rewrite app_assoc.
Qed.

Lemma steps_typingQuiet l p :
  reachable p -> typingQuiet l p ->
  isTyping (chatState (steps l p)) = isTyping (chatState p).
Proof.
  revert p. induction l as [|[env a] l IH]; intros p H Q; simpl.
  - reflexivity.
  - destruct Q as [Q1 Q2].
    rewrite IH by (try constructor; assumption).
    rewrite step_isTyping by (apply reachable_wired; exact H).
    now rewrite Q1.
Qed.

Lemma trim_truthy s : trim s <> [] -> truthy (trim s) = true.
Proof. destruct (trim s); [congruence|reflexivity]. Qed.

Example clientId_start :
  clientId (start (random36 env0)) = lit "4fzyo82mv".
Proof. reflexivity. Qed.

Example trim_example :
  trim (lit "  hello there ") = lit "hello there" /\ trim (lit "   ") = [].
Proof. split; reflexivity. Qed.

Example connected0_view :
  map markdown (messagesArea (render connected0)) = [welcomeText]
  /\ online (render connected0) = true
  /\ toasts connected0 = [(success, lit "Connected to ChatBotX!")].
Proof. repeat split. Qed.

(** *** Sending a message *)

(** Past its guard, [sendMessage] makes these four calls. *)
Lemma sendMessage_calls env p message payload sock :
  trim message <> [] ->
  socketRef p = Some sock ->
  sendMessage p env message payload
  = (addMessage (userMessage env message)
     ++ [SetInputMessage []; SetChatState (with_isTyping true)])
    ++ [Emit "message" (outgoing p env message payload)].
Proof.
  intros Ht Hs. unfold sendMessage, hasSocket.
  rewrite (trim_truthy _ Ht), Hs. reflexivity.
Qed.

(** What the panel is after them. *)
Lemma sendMessage_result env p message payload sock :
  trim message <> [] ->
  socketRef p = Some sock ->
  messages (chatState (run (sendMessage p env message payload) p))
  = messages (chatState p) ++ [userMessage env message]
  /\ isTyping (chatState (run (sendMessage p env message payload) p)) = true
  /\ inputMessage (run (sendMessage p env message payload) p) = []
  /\ sent (run (sendMessage p env message payload) p)
     = sent p ++ [("message"%string, outgoing p env message payload)].
Proof.
  intros Ht Hs. rewrite (sendMessage_calls env p message payload sock Ht Hs).
  unfold sent. cbn. rewrite Hs. cbn. repeat split; reflexivity.
Qed.



(** C8. When the message trims to the empty string, or the socket
    reference is null, [sendMessage] makes no call at all: the panel is
    left as it was -- message list, typing flag and input field included
    -- and no [message] event is emitted. *)
Theorem sendMessage_guard_noop env p message payload :
  trim message = [] \/ socketRef p = None ->
  sendMessage p env message payload = []
  /\ existsb isEmit (sendMessage p env message payload) = false
  /\ run (sendMessage p env message payload) p = p
  /\ messages (chatState (run (sendMessage p env message payload) p))
     = messages (chatState p)
  /\ isTyping (chatState (run (sendMessage p env message payload) p))
     = isTyping (chatState p)
  /\ inputMessage (run (sendMessage p env message payload) p)
     = inputMessage p
  /\ sent (run (sendMessage p env message payload) p) = sent p.
Proof.
  intros H.
  assert (E : sendMessage p env message payload = []).
  { unfold sendMessage, hasSocket.
    destruct H as [H|H]; rewrite H; cbn; [reflexivity|].
    now rewrite orb_true_r. }
  rewrite E. repeat split.
Qed.

Lemma sendMessage_guard_noop_witness :
  sendMessage connected0 env0 (lit "   ") None = []
  /\ sendMessage (init (random36 env0)) env0 (lit "hi") None = [].
Proof.
  split.
  - apply (sendMessage_guard_noop env0 connected0 (lit "   ") None).
    left. reflexivity.
  - apply (sendMessage_guard_noop env0 (init (random36 env0)) (lit "hi") None).
    right. reflexivity.
Defined.

(** *** Quick replies and action buttons *)

(** C7, as the code has it. On the mounted panel, activating the chip of
    a quick reply or an action button whose title does not trim to the
    empty string calls [sendMessage(title, payload)]: a user record whose
    text is the title is appended to the message list, and one [message]
    event goes out whose message is the title and whose payload is the
    payload of the button. *)
Theorem quickReply_sends_prefilled env p b :
  reachable p ->
  trim (title b) <> [] ->
  onClick (chip b) = QuickReply (title b) (payload b)
  /\ messages (chatState (step env (onClick (chip b)) p))
     = messages (chatState p) ++ [userMessage env (title b)]
  /\ text (userMessage env (title b)) = title b
  /\ sender (userMessage env (title b)) = user
  /\ sent (step env (onClick (chip b)) p)
     = sent p ++ [("message"%string,
                   outgoing p env (title b) (Some (payload b)))]
  /\ out_message (outgoing p env (title b) (Some (payload b))) = title b
  /\ out_payload (outgoing p env (title b) (Some (payload b)))
     = Some (payload b).
Proof.
  intros R Ht. destruct (reachable_wired p R) as [sock [Hs _]].
  destruct (sendMessage_result env p (title b) (Some (payload b)) sock Ht Hs)
    as [Hm [_ [_ Ho]]].
  repeat split; assumption.
Qed.

Lemma quickReply_sends_prefilled_witness :
  messages (chatState (step env0 (onClick (chip faqReply)) connected0))
  = messages (chatState connected0) ++ [userMessage env0 (lit "FAQ")]
  /\ sent (step env0 (onClick (chip faqReply)) connected0)
     = [("message"%string,
         outgoing connected0 env0 (lit "FAQ") (Some (lit "/faq")))].
Proof.
  destruct (quickReply_sends_prefilled env0 connected0 faqReply)
    as [_ [Hm [_ [_ [Ho _]]]]].
  - unfold connected0. constructor. constructor.
  - vm_compute. discriminate.
  - split; [exact Hm|exact Ho].
Defined.

(** C7 as stated fails on a quick reply with a blank title: the bot
    offers one, the panel renders its chip, and activating the chip
    appends no record and emits nothing. *)
Lemma quickReply_blank_title_counterexample :
  reachable offered0
  /\ (exists v, In v (messagesArea (render offered0))
                /\ quickReplyChips v = Some [chip blankReply])
  /\ messages (chatState (step env0 (onClick (chip blankReply)) offered0))
     = messages (chatState offered0)
  /\ sent (step env0 (onClick (chip blankReply)) offered0) = []
  /\ ~ (exists m,
          messages (chatState (step env0 (onClick (chip blankReply))
                                 offered0))
          = messages (chatState offered0) ++ [m]
          /\ text m = title blankReply).
Proof.
  split; [|split; [|split; [|split]]].
  - unfold offered0, connected0. do 2 constructor. constructor.
  - exists (renderMessage (botMessage env0 blankOffer)). split.
    + right. left. reflexivity.
    + reflexivity.
  - reflexivity.
  - reflexivity.
  - intros [m [H _]]. apply (f_equal (@List.length Message)) in H.
    rewrite length_app in H. vm_compute in H. discriminate.
Qed.

(** *** The socket listeners *)

(** C4. [initializeConnection] registers listeners for exactly the five
    events [connect], [disconnect], [bot_response], [typing] and
    [system], and the socket of the panel keeps exactly those. A
    [bot_response] event appends exactly one record, a bot record with
    the text, buttons, quick replies, suggestions and metadata of the
    payload, at the end of the message list; a [system] event leaves
    the list as it is. *)
Theorem socket_listeners_and_appends env data p :
  reachable p ->
  map fst (listeners initializeConnection)
  = ["connect"; "disconnect"; "bot_response"; "typing"; "system"]%string
  /\ (exists s, socketRef p = Some s
                /\ map fst (listeners s) = map fst (listeners initializeConnection))
  /\ messages (chatState (step env (SocketEvent "bot_response" data) p))
     = messages (chatState p) ++ [botMessage env data]
  /\ sender (botMessage env data) = bot
  /\ text (botMessage env data) = data_text data
  /\ buttons (botMessage env data) = data_buttons data
  /\ quick_replies (botMessage env data) = data_quick_replies data
  /\ suggestions (botMessage env data) = data_suggestions data
  /\ metadata (botMessage env data) = data_metadata data
  /\ messages (chatState (step env (SocketEvent "system" data) p))
     = messages (chatState p).
Proof.
  intros H. apply reachable_wired in H.
  split; [reflexivity|]. split.
  { destruct H as [s [Hs Hl]]. exists s. split; [exact Hs|now rewrite Hl]. }
  split; [rewrite step_messages by exact H; reflexivity|].
  do 6 (split; [reflexivity|]).
  rewrite step_messages by exact H. cbn. apply app_nil_r.
Qed.

Lemma socket_listeners_and_appends_witness :
  messages (chatState (step env0 (SocketEvent "bot_response" blankOffer)
                         connected0))
  = messages (chatState connected0) ++ [botMessage env0 blankOffer]
  /\ messages (chatState (step env0 (SocketEvent "system" noData) connected0))
     = messages (chatState connected0).
Proof.
  destruct (socket_listeners_and_appends env0 blankOffer connected0)
    as [_ [_ [Hb _]]].
  - unfold connected0. constructor. constructor.
  - split; [exact Hb|].
    apply (socket_listeners_and_appends env0 noData connected0).
    unfold connected0. constructor. constructor.
Defined.

(** *** The connection flag *)

(** C5. The connection flag is false when the component is created and
    still false once it is mounted; a [connect] event sets it to true, a
    [disconnect] event sets it to false, and no other socket event and
    no user action changes it. *)
Theorem isConnected_tracks_socket env a data p :
  reachable p ->
  (forall r, isConnected (chatState (init r)) = false
             /\ isConnected (chatState (start r)) = false)
  /\ isConnected (chatState (step env (SocketEvent "connect" data) p)) = true
  /\ isConnected (chatState (step env (SocketEvent "disconnect" data) p))
     = false
  /\ ((forall d, a <> SocketEvent "connect" d) ->
      (forall d, a <> SocketEvent "disconnect" d) ->
      isConnected (chatState (step env a p)) = isConnected (chatState p)).
Proof.
  intros H. apply reachable_wired in H.
  split; [intros r; split; reflexivity|].
  rewrite !step_isConnected by exact H.
  split; [reflexivity|]. split; [reflexivity|].
  intros N1 N2. destruct a as [event d|v| |t pl| | |t| | | ];
    try reflexivity.
  cbn. destruct (String.eqb_spec event "connect") as [->|_].
  { exfalso. exact (N1 d eq_refl). }
  destruct (String.eqb_spec event "disconnect") as [->|_].
  { exfalso. exact (N2 d eq_refl). }
  reflexivity.
Qed.

Lemma isConnected_tracks_socket_witness :
  isConnected (chatState (step env0 (SocketEvent "connect" noData)
                            (start (random36 env0)))) = true
  /\ isConnected (chatState (step env0 (SocketEvent "disconnect" noData)
                               connected0)) = false
  /\ isConnected (chatState (step env0 (QuickReply (lit "FAQ") (lit "/faq"))
                               connected0))
     = isConnected (chatState connected0).
Proof.
  split; [|split].
  - apply (isConnected_tracks_socket env0 InputSubmit noData
             (start (random36 env0))).
    constructor.
  - apply (isConnected_tracks_socket env0 InputSubmit noData connected0).
    unfold connected0. constructor. constructor.
  - apply (isConnected_tracks_socket env0 (QuickReply (lit "FAQ") (lit "/faq"))
             noData connected0).
    + unfold connected0. constructor. constructor.
    + intros d. discriminate.
    + intros d. discriminate.
Defined.

(** *** The typing flag *)

(** C3 as stated fails: sending a message is not a [typing] event and
    turns the typing flag on, and a [bot_response] event turns it off. *)
Lemma typing_flag_other_writers_counterexample :
  reachable connected0
  /\ (forall d, QuickReply (lit "FAQ") (lit "/faq") <> SocketEvent "typing" d)
  /\ isTyping (chatState connected0) = false
  /\ isTyping (chatState (step env0 (QuickReply (lit "FAQ") (lit "/faq"))
                            connected0)) = true
  /\ isTyping (chatState
                 (step env0 (SocketEvent "bot_response" blankOffer)
                    (step env0 (QuickReply (lit "FAQ") (lit "/faq"))
                       connected0))) = false.
Proof.
  split; [|split; [|split; [|split]]].
  - unfold connected0. constructor. constructor.
  - intros d. discriminate.
  - reflexivity.
  - reflexivity.
  - reflexivity.
Qed.

(** C3, as the code has it. Three kinds of step write the typing flag: a
    [typing] event sets it to the [is_typing] of its payload, a
    [bot_response] event sets it to false, and a [sendMessage] that
    passes its guard sets it to true. Every other step leaves it as it
    is. Hence after a [typing] event with [is_typing = b], followed by
    any steps none of which writes the flag, the flag is [b]. *)
Theorem typing_flag_last_write env a data l p :
  reachable p ->
  isTyping (chatState (step env (SocketEvent "typing" data) p))
  = data_is_typing data
  /\ isTyping (chatState (step env (SocketEvent "bot_response" data) p))
     = false
  /\ (forall message payload,
        trim message <> [] ->
        isTyping (chatState (run (sendMessage p env message payload) p))
        = true)
  /\ ((forall d, a <> SocketEvent "typing" d) ->
      (forall d, a <> SocketEvent "bot_response" d) ->
      a <> InputSubmit ->
      (forall t pl, a <> QuickReply t pl) ->
      isTyping (chatState (step env a p)) = isTyping (chatState p))
  /\ (typingWrite a p = None ->
      isTyping (chatState (step env a p)) = isTyping (chatState p))
  /\ (typingQuiet l (step env (SocketEvent "typing" data) p) ->
      isTyping (chatState (steps ((env, SocketEvent "typing" data) :: l) p))
      = data_is_typing data).
Proof.
  intros R. pose proof (reachable_wired p R) as H.
  split; [rewrite step_isTyping by exact H; reflexivity|].
  split; [rewrite step_isTyping by exact H; reflexivity|].
  split.
  { intros message payload Ht. destruct H as [s [Hs _]].
    apply (sendMessage_result env p message payload s Ht Hs). }
  split.
  { intros N1 N2 N3 N4. rewrite step_isTyping by exact H.
    destruct a as [event d|v| |t pl| | |t| | | ]; try reflexivity.
    - cbn. destruct (String.eqb_spec event "typing") as [->|_].
      { exfalso. exact (N1 d eq_refl). }
      destruct (String.eqb_spec event "bot_response") as [->|_].
      { exfalso. exact (N2 d eq_refl). }
      reflexivity.
    - congruence.
    - exfalso. exact (N4 t pl eq_refl). }
  split.
  { intros Q. rewrite step_isTyping by exact H. now rewrite Q. }
  intros Q. simpl.
  rewrite steps_typingQuiet by (try constructor; assumption).
  rewrite step_isTyping by exact H. reflexivity.
Qed.

Lemma typing_flag_last_write_witness :
  isTyping (chatState
              (steps [ (env0, SocketEvent "typing" typingOn);
                       (env0, ToggleFullscreen);
                       (env0, InputChange (lit "so"));
                       (env0, SocketEvent "system" noData) ]
                 connected0))
  = true
  /\ isTyping (chatState
                 (run (sendMessage connected0 env0 (lit "hi") None)
                    connected0))
     = true
  /\ isTyping (chatState (step env0 ToggleFullscreen connected0))
     = isTyping (chatState connected0)
  /\ isTyping (chatState (step env0 InputSubmit connected0))
     = isTyping (chatState connected0).
Proof.
  assert (R : reachable connected0).
  { unfold connected0. constructor. constructor. }
  destruct (typing_flag_last_write env0 ToggleFullscreen typingOn
              [ (env0, ToggleFullscreen);
                (env0, InputChange (lit "so"));
                (env0, SocketEvent "system" noData) ]
              connected0 R)
    as [_ [_ [H3 [H4 [_ H6]]]]].
  split; [apply H6; cbn; repeat split|].
  split; [apply H3; vm_compute; discriminate|].
  split; [apply H4; intros; discriminate|].
  apply (typing_flag_last_write env0 InputSubmit typingOn [] connected0 R).
  reflexivity.
Defined.

(** *** Rendering *)

(** C6. Whatever the run that led to it, the messages area of the panel
    shows one element per record of the message list, the element at
    each position being the rendering of the record at that position;
    and the message list is the records the steps of the run appended,
    in the order of the steps. A further step only adds elements at the
    end. *)
Theorem messages_render_in_insertion_order r l :
  messages (chatState (steps l (start r))) = appendedAll l (start r)
  /\ messagesArea (render (steps l (start r)))
     = map renderMessage (appendedAll l (start r))
  /\ List.length (messagesArea (render (steps l (start r))))
     = List.length (messages (chatState (steps l (start r))))
  /\ (forall i,
        nth_error (messagesArea (render (steps l (start r)))) i
        = option_map renderMessage
            (nth_error (messages (chatState (steps l (start r)))) i))
  /\ map key (messagesArea (render (steps l (start r))))
     = map id (messages (chatState (steps l (start r))))
  /\ map markdown (messagesArea (render (steps l (start r))))
     = map text (messages (chatState (steps l (start r))))
  /\ (forall env a,
        messagesArea (render (step env a (steps l (start r))))
        = messagesArea (render (steps l (start r)))
          ++ map renderMessage (appended env a (steps l (start r)))).
Proof.
  assert (R : reachable (steps l (start r))).
  { apply reachable_steps. constructor. }
  assert (M : messages (chatState (steps l (start r)))
              = appendedAll l (start r)).
  { rewrite steps_messages by constructor. reflexivity. }
  split; [exact M|].
  split; [unfold render; cbn; now rewrite M|].
  split; [unfold render; cbn; apply length_map|].
  split; [intros i; unfold render; cbn; apply nth_error_map|].
  split; [unfold render; cbn; rewrite map_map; reflexivity|].
  split; [unfold render; cbn; rewrite map_map; reflexivity|].
  intros env a. unfold render; cbn.
  rewrite step_messages by (apply reachable_wired; exact R).
  apply map_app.
Qed.

Example render_order_example :
  map markdown
    (messagesArea
       (render (steps [ (env0, SocketEvent "connect" noData);
                        (env0, QuickReply (lit "FAQ") (lit "/faq"));
                        (env0, SocketEvent "bot_response" blankOffer) ]
                  (start (random36 env0)))))
  = [welcomeText; lit "FAQ"; lit "More?"].
Proof. reflexivity. Qed.

End ChatPanel.

(* ===================================================================== *)
(** ** Properties of the chat slice *)
(* ===================================================================== *)

Section ChatSliceFacts.
Import JS ChatSlice.

(** An action that clears nothing keeps the two lists equal. *)
Lemma reducer_mirror state a :
  isClear a = false ->
  messages state = conversationHistory state ->
  messages (reducer state a) = conversationHistory (reducer state a).
Proof.
  intros C E. destruct a; cbn in *; try discriminate; try exact E.
  now rewrite E.
Qed.

Lemma reduce_mirror actions state :
  forallb (fun a => negb (isClear a)) actions = true ->
  messages state = conversationHistory state ->
  messages (reduce actions state) = conversationHistory (reduce actions state).
Proof.
  revert state. induction actions as [|a l IH]; intros state C E; simpl.
  - exact E.
  - simpl in C. apply andb_true_iff in C. destruct C as [C1 C2].
    apply IH; [exact C2|]. apply reducer_mirror; [|exact E].
    now apply negb_true_iff.
Qed.

Lemma no_clear actions :
  ~ In clearMessages actions -> ~ In clearHistory actions ->
  forallb (fun a => negb (isClear a)) actions = true.
Proof.
  intros N1 N2. apply forallb_forall. intros a I.
  destruct a; try reflexivity.
  - exfalso. exact (N1 I).
  - exfalso. exact (N2 I).
Qed.

(** Every action but [clearMessages] extends the message list of the
    slice by at most one record. *)
Lemma reducer_messages_extend state a :
  a <> clearMessages ->
  exists new, messages (reducer state a) = messages state ++ new
              /\ List.length new <= 1.
Proof.
  intros N. destruct a as [m|b|b|v|v| | |t]; try congruence;
    try (exists []; cbn; rewrite app_nil_r; split; [reflexivity|lia]).
  exists [m]. cbn. split; [reflexivity|lia].
Qed.

(** C9. In the chat slice, [addMessage] appends its payload to both
    [messages] and [conversationHistory]; [clearMessages] empties
    [messages] and leaves [conversationHistory]; [clearHistory] empties
    [conversationHistory] and leaves [messages]; no other action touches
    either list. Hence after any sequence of actions with neither
    [clearMessages] nor [clearHistory] in it, starting from the initial
    state, the two lists are equal. *)
Theorem history_mirrors_messages actions state payload a :
  ~ In clearMessages actions ->
  ~ In clearHistory actions ->
  (messages (reducer state (addMessage payload))
   = messages state ++ [payload]
   /\ conversationHistory (reducer state (addMessage payload))
      = conversationHistory state ++ [payload])
  /\ ((forall m, a <> addMessage m) ->
      a <> clearMessages -> a <> clearHistory ->
      messages (reducer state a) = messages state
      /\ conversationHistory (reducer state a) = conversationHistory state)
  /\ (messages (reducer state clearMessages) = []
      /\ conversationHistory (reducer state clearMessages)
         = conversationHistory state)
  /\ (conversationHistory (reducer state clearHistory) = []
      /\ messages (reducer state clearHistory) = messages state)
  /\ messages (reduce actions initialState)
     = conversationHistory (reduce actions initialState).
Proof.
  intros N1 N2.
  split; [split; reflexivity|].
  split.
  { intros M C1 C2. destruct a as [m|b|b|v|v| | |t];
      try (split; reflexivity); try congruence;
      exfalso; exact (M m eq_refl). }
  split; [split; reflexivity|].
  split; [split; reflexivity|].
  apply reduce_mirror; [|reflexivity].
  apply no_clear; assumption.
Qed.

Lemma history_mirrors_messages_witness :
  messages (reduce [addMessage hello; setTyping true; addMessage hello]
              initialState)
  = conversationHistory
      (reduce [addMessage hello; setTyping true; addMessage hello]
         initialState)
  /\ messages (reducer greeted (setTyping true)) = messages greeted
  /\ conversationHistory (reducer greeted (setTyping true))
     = conversationHistory greeted.
Proof.
  destruct (history_mirrors_messages
              [addMessage hello; setTyping true; addMessage hello]
              greeted hello (setTyping true))
    as [_ [H2 [_ [_ H5]]]].
  - cbn. intros [H|[H|[H|H]]]; try discriminate; exact H.
  - cbn. intros [H|[H|[H|H]]]; try discriminate; exact H.
  - split; [exact H5|]. apply H2; intros; discriminate.
Defined.

Example clearMessages_breaks_mirror :
  messages (reduce [addMessage hello; clearMessages] initialState) = []
  /\ conversationHistory
       (reduce [addMessage hello; clearMessages] initialState) = [hello].
Proof. split; reflexivity. Qed.

End ChatSliceFacts.

(* ===================================================================== *)
(** ** The message list, in the panel and in the slice *)
(* ===================================================================== *)

Section AppendOnly.

(** C2 as stated fails on the slice: [clearMessages] removes the records
    of the message list. *)
Lemma clearMessages_not_append_counterexample :
  ChatSlice.messages ChatSlice.greeted = [ChatSlice.hello]
  /\ ChatSlice.messages
       (ChatSlice.reducer ChatSlice.greeted ChatSlice.clearMessages) = []
  /\ ~ (exists new,
          ChatSlice.messages
            (ChatSlice.reducer ChatSlice.greeted ChatSlice.clearMessages)
          = ChatSlice.messages ChatSlice.greeted ++ new).
Proof.
  split; [reflexivity|]. split; [reflexivity|].
  intros [new H]. cbn in H. discriminate.
Qed.

(** C2, as the code has it. On the panel, every step -- socket event or
    user action -- leaves the message list as it was or appends one
    record at its end, and so a run of steps only appends. In the slice
    the same holds of every action but [clearMessages], which empties
    the list. *)
Theorem message_list_append_only env a l p state act :
  ChatInterface.reachable p ->
  act <> ChatSlice.clearMessages ->
  (exists new,
     ChatInterface.messages
       (ChatInterface.chatState (ChatInterface.step env a p))
     = ChatInterface.messages (ChatInterface.chatState p) ++ new
     /\ List.length new <= 1)
  /\ (exists new,
        ChatInterface.messages
          (ChatInterface.chatState (ChatInterface.steps l p))
        = ChatInterface.messages (ChatInterface.chatState p) ++ new)
  /\ (exists new,
        ChatSlice.messages (ChatSlice.reducer state act)
        = ChatSlice.messages state ++ new
        /\ List.length new <= 1)
  /\ ChatSlice.messages (ChatSlice.reducer state ChatSlice.clearMessages)
     = [].
Proof.
  intros R N. split.
  { exists (ChatInterface.appended env a p). split.
    - apply step_messages. apply reachable_wired. exact R.
    - destruct a as [event data|v| |t pl| | |t| | | ]; cbn; try lia.
      + destruct (String.eqb event "connect"); cbn; [lia|].
        destruct (String.eqb event "bot_response"); cbn; lia.
      + destruct (JS.truthy _); cbn; lia.
      + destruct (JS.truthy _); cbn; lia. }
  split.
  { exists (ChatInterface.appendedAll l p). apply steps_messages. exact R. }
  split; [apply reducer_messages_extend; exact N|reflexivity].
Qed.

Lemma message_list_append_only_witness :
  exists new,
    ChatSlice.messages
      (ChatSlice.reducer ChatSlice.greeted
         (ChatSlice.addMessage ChatSlice.hello))
    = ChatSlice.messages ChatSlice.greeted ++ new
    /\ List.length new <= 1.
Proof.
  apply (message_list_append_only ChatInterface.env0
           ChatInterface.InputSubmit [] ChatInterface.connected0
           ChatSlice.greeted (ChatSlice.addMessage ChatSlice.hello)).
  - unfold ChatInterface.connected0. constructor. constructor.
  - discriminate.
Defined.

End AppendOnly.

(* ===================================================================== *)
(** ** Properties of the courses slice *)
(* ===================================================================== *)

Section CoursesFacts.
Import JS CoursesSlice.

Variable toLowerCase : jsstring -> jsstring.

Lemma filter_filter {A : Type} (f g : A -> bool) (l : list A) :
  filter g (filter f l) = filter (fun x => f x && g x) l.
Proof.
  induction l as [|x l IH]; simpl.
  - reflexivity.
  - destruct (f x); simpl; [|exact IH].
    destruct (g x); now rewrite IH.
Qed.

Lemma filter_true {A : Type} (l : list A) : filter (fun _ => true) l = l.
Proof.
  induction l as [|x l IH]; simpl; [reflexivity|now rewrite IH].
Qed.

Lemma filter_subsequence {A : Type} (f : A -> bool) (l : list A) :
  subsequence (filter f l) l.
Proof.
  induction l as [|x l IH]; simpl.
  - constructor.
  - destruct (f x); constructor; exact IH.
Qed.

(** The four filters of [filterCourses], applied one after the other,
    keep the courses the four conditions select together. *)
Lemma filtered_selected state :
  filtered toLowerCase state
  = filter (selected toLowerCase (filters state)) (courses state).
Proof.
  unfold filtered, selected, categoryMatches, levelMatches, searchMatches,
    priceWithin, geq, leq.
  cbv zeta.
  destruct (f_category (filters state)) as [|c0 cr];
    destruct (f_level (filters state)) as [|l0 lr];
    destruct (searchQuery (filters state)) as [|q0 qr];
    cbn [truthy]; rewrite ?filter_filter; apply filter_ext; intros c;
    cbn [existsb]; btauto.
Qed.

(** C10. After [filterCourses], [filteredCourses] holds, in their order
    in [courses], the courses whose price lies within the price range,
    bounds included, and that match the category, the level and the
    search query whenever these are not empty, and [pagination.total] is
    its length. With the three other filters empty the price range still
    applies. [clearFilters] resets the filters and sets [filteredCourses]
    to the whole of [courses], price range not applied. *)
Theorem filterCourses_selects state range :
  filteredCourses (filterCourses toLowerCase state)
  = filter (selected toLowerCase (filters state)) (courses state)
  /\ subsequence (filteredCourses (filterCourses toLowerCase state))
       (courses state)
  /\ total (pagination (filterCourses toLowerCase state))
     = lengthOf (filteredCourses (filterCourses toLowerCase state))
  /\ filteredCourses
       (filterCourses toLowerCase (with_filters (priceOnly range) state))
     = filter (priceWithin range) (courses state)
  /\ filters (clearFilters state) = defaultFilters
  /\ filteredCourses (clearFilters state) = courses state.
Proof.
  split; [apply filtered_selected|].
  split.
  { unfold filterCourses. cbn [filteredCourses].
    rewrite filtered_selected. apply filter_subsequence. }
  split; [reflexivity|].
  split; [|split; reflexivity].
  unfold filterCourses. cbn [filteredCourses].
  rewrite filtered_selected. apply filter_ext. intros c.
  unfold selected, categoryMatches, levelMatches, searchMatches. cbn.
  now rewrite !andb_true_r.
Qed.

End CoursesFacts.

Section CoursesExamples.
Import JS CoursesSlice.

(** With the default filters only the price range [0, 1000] applies: the
    course at 1499 is left out, the ones at 0 and at 1000 are kept. *)
Example filterCourses_default :
  map title (filteredCourses (filterCourses asciiLower loaded))
  = [lit "Python Basics"; lit "SQL for Analysts"; lit "Free Taster"]
  /\ total (pagination (filterCourses asciiLower loaded)) = 3%float.
Proof. split; vm_compute; reflexivity. Qed.

(** [clearFilters] brings back the course at 1499 while the price range
    is back to [0, 1000]. *)
Example clearFilters_keeps_all :
  filteredCourses (clearFilters (filterCourses asciiLower loaded))
  = catalogue
  /\ priceRange (filters (clearFilters (filterCourses asciiLower loaded)))
     = (0%float, 1000%float)
  /\ total (pagination (clearFilters (filterCourses asciiLower loaded)))
     = 3%float.
Proof. repeat split; vm_compute; reflexivity. Qed.

Example filterCourses_search :
  map title
    (filteredCourses
       (filterCourses asciiLower
          (setFilters {| set_category := Some (lit "data");
                         set_level := None;
                         set_priceRange := Some (0%float, 2000%float);
                         set_searchQuery := Some (lit "GRACE") |}
             loaded)))
  = [lit "Deep Learning"].
Proof. vm_compute. reflexivity. Qed.

End CoursesExamples.

(* ===================================================================== *)
(** ** Further properties of the chat panel *)
(* ===================================================================== *)

Section ChatPanelInvariants.
Import JS ChatInterface.

(** Case analysis on what a step runs: the listener the event selects,
    the two outcomes of the guard of [sendMessage], the branches of the
    voice button and of the Listen button. *)
Ltac by_action W a env p :=
  let s := fresh "s" in
  let Hs := fresh "Hs" in
  let Hl := fresh "Hl" in
  destruct W as [s [Hs Hl]];
  destruct a as [event data|v| |t pl| | |t| | | ];
  unfold step, handle, handleInputSubmit, handleQuickReply, sendMessage,
    hasSocket, handleVoiceRecording, startRecording, stopRecording,
    speakText, sent;
  cbn [appended emitted typingWrite connectedWrite];
  rewrite ?Hs;
  [ destruct (dispatch_cases s event env data Hl)
      as [[-> ->]|[[-> ->]|[[-> ->]|[[-> ->]|[[-> ->]|[? ->]]]]]];
    [ | | | | unfold onSystem; destruct (jseqb _ _) | ]
  | | destruct (truthy (trim (inputMessage p)))
  | destruct (truthy (trim t))
  | destruct (isRecording p) eqn:?; destruct (getUserMedia env);
    destruct (mediaRecorderRef p) eqn:?
  | | destruct (speechSynthesis env) | | | ];
  cbn; rewrite ?Hs; cbn.

Lemma step_sent env a p :
  wired p -> sent (step env a p) = sent p ++ emitted env a p.
Proof.
  intros W. by_action W a env p; rewrite ?app_nil_r; reflexivity.
Qed.

Lemma step_clientId env a p :
  wired p -> clientId (step env a p) = clientId p.
Proof.
  intros W. by_action W a env p; reflexivity.
Qed.

Lemma step_currentLanguage env a p :
  wired p ->
  currentLanguage (chatState (step env a p)) = currentLanguage (chatState p).
Proof.
  intros W. by_action W a env p; reflexivity.
Qed.

Lemma steps_clientId l p :
  reachable p -> clientId (steps l p) = clientId p.
Proof.
  revert p. induction l as [|[env a] l IH]; intros p R; simpl.
  - reflexivity.
  - rewrite IH by (constructor; exact R).
    apply step_clientId. apply reachable_wired. exact R.
Qed.

Lemma steps_currentLanguage l p :
  reachable p ->
  currentLanguage (chatState (steps l p)) = currentLanguage (chatState p).
Proof.
  revert p. induction l as [|[env a] l IH]; intros p R; simpl.
  - reflexivity.
  - rewrite IH by (constructor; exact R).
    apply step_currentLanguage. apply reachable_wired. exact R.
Qed.

(** What a step emits carries the texts of the user records it appends. *)
Lemma emitted_appended env a p :
  map (fun e => out_message (snd e)) (emitted env a p)
  = map text (filter isUser (appended env a p)).
Proof.
  destruct a as [event data|v| |t pl| | |t| | | ]; cbn; try reflexivity.
  - destruct (String.eqb event "connect"); [reflexivity|].
    destruct (String.eqb event "bot_response"); reflexivity.
  - destruct (truthy (trim (inputMessage p))); reflexivity.
  - destruct (truthy (trim t)); reflexivity.
Qed.

Lemma steps_sent_messages l p :
  reachable p ->
  map (fun e => out_message (snd e)) (sent p)
  = map text (filter isUser (messages (chatState p))) ->
  map (fun e => out_message (snd e)) (sent (steps l p))
  = map text (filter isUser (messages (chatState (steps l p)))).
Proof.
  revert p. induction l as [|[env a] l IH]; intros p R I; simpl.
  - exact I.
  - apply IH; [constructor; exact R|].
    pose proof (reachable_wired p R) as W.
    rewrite step_sent, step_messages by exact W.
    rewrite filter_app, !map_app, I, emitted_appended. reflexivity.
Qed.

(** X1. Whatever the run of the mounted panel, the [message] events it
    has emitted and the user records of its message list correspond one
    to one, in order: the n-th event carries the text of the n-th user
    record. No user record is shown without its event having been
    emitted, and nothing is emitted without a record being shown. *)
Theorem emitted_match_user_records r l :
  map (fun e => out_message (snd e)) (sent (steps l (start r)))
  = map text (filter isUser (messages (chatState (steps l (start r)))))
  /\ List.length (sent (steps l (start r)))
     = List.length (filter isUser (messages (chatState (steps l (start r))))).
Proof.
  assert (H : map (fun e => out_message (snd e)) (sent (steps l (start r)))
              = map text (filter isUser
                            (messages (chatState (steps l (start r)))))).
  { apply steps_sent_messages; [constructor|reflexivity]. }
  split; [exact H|].
  apply (f_equal (@List.length jsstring)) in H.
  now rewrite !length_map in H.
Qed.

Lemma steps_sent_Forall (P : string * Outgoing -> Prop) l p :
  reachable p ->
  (forall env a q, reachable q -> clientId q = clientId p ->
                   currentLanguage (chatState q) = currentLanguage (chatState p) ->
                   Forall P (emitted env a q)) ->
  Forall P (sent p) ->
  Forall P (sent (steps l p)).
Proof.
  intros R HP. 
  assert (G : forall l q, reachable q -> clientId q = clientId p ->
              currentLanguage (chatState q) = currentLanguage (chatState p) ->
              Forall P (sent q) -> Forall P (sent (steps l q))).
  { clear l. induction l as [|[env a] l IH]; intros q Rq C L F; simpl.
    - exact F.
    - pose proof (reachable_wired q Rq) as W.
      apply IH.
      + constructor. exact Rq.
      + rewrite step_clientId by exact W. exact C.
      + rewrite step_currentLanguage by exact W. exact L.
      + rewrite step_sent by exact W. apply Forall_app. split.
        * exact F.
        * apply HP; assumption. }
  intros F. apply G; auto.
Qed.

(** X2. Every event the mounted panel emits, in any run, is a [message]
    event whose sender is the client id cut from the random string at
    creation (characters 2 to 10) and whose language is [en]: the client
    id and the language are never written again. *)
Theorem emitted_sender_and_language r l :
  clientId (steps l (start r)) = substr 2 9 r
  /\ currentLanguage (chatState (steps l (start r))) = lit "en"
  /\ Forall (fun e => fst e = "message"%string
                      /\ out_sender (snd e) = substr 2 9 r
                      /\ out_language (out_metadata (snd e)) = lit "en")
       (sent (steps l (start r))).
Proof.
  split; [rewrite steps_clientId by constructor; reflexivity|].
  split; [rewrite steps_currentLanguage by constructor; reflexivity|].
  apply steps_sent_Forall; [constructor| |constructor].
  intros env a q _ C L. cbn in C, L.
  destruct a as [event data|v| |t pl| | |t| | | ]; cbn; try constructor.
  - destruct (truthy (trim (inputMessage q))); constructor; [|constructor].
    cbn. rewrite C, L. repeat split.
  - destruct (truthy (trim t)); constructor; [|constructor].
    cbn. rewrite C, L. repeat split.
Qed.

Lemma appended_bare env a p :
  Forall (fun m => sender m = user -> bare m) (appended env a p).
Proof.
  destruct a as [event data|v| |t pl| | |t| | | ]; cbn; try constructor.
  - destruct (String.eqb event "connect").
    { constructor; [discriminate|constructor]. }
    destruct (String.eqb event "bot_response"); constructor;
      [discriminate|constructor].
  - destruct (truthy (trim (inputMessage p))); constructor;
      [|constructor].
    intros _. repeat split.
  - destruct (truthy (trim t)); constructor; [|constructor].
    intros _. repeat split.
Qed.

Lemma appendedAll_bare l p :
  Forall (fun m => sender m = user -> bare m) (appendedAll l p).
Proof.
  revert p. induction l as [|[env a] l IH]; intros p; simpl.
  - constructor.
  - apply Forall_app. split; [apply appended_bare|apply IH].
Qed.

(** X3. In any run of the mounted panel, a user record of the message
    list has none of the optional fields: no buttons, no quick replies,
    no suggestions, no metadata. So only bot messages are ever rendered
    with quick-reply chips, action buttons or a Listen button. *)
Theorem user_records_are_bare r l :
  Forall (fun m => sender m = user -> bare m)
    (messages (chatState (steps l (start r))))
  /\ Forall (fun v => fromUser v = true ->
                      quickReplyChips v = None /\ actionButtons v = None
                      /\ listenButton v = None)
       (messagesArea (render (steps l (start r)))).
Proof.
  assert (B : Forall (fun m => sender m = user -> bare m)
                (messages (chatState (steps l (start r))))).
  { rewrite steps_messages by constructor. apply appendedAll_bare. }
  split; [exact B|].
  unfold render. cbn [messagesArea]. apply Forall_map.
  eapply Forall_impl; [|exact B].
  intros m Hm Hu. unfold renderMessage in *. cbn in *.
  destruct (sender m); [|discriminate].
  destruct (Hm eq_refl) as [_ [Hb [Hq _]]]. rewrite Hb, Hq.
  repeat split.
Qed.

(** X4. On the mounted panel, whenever the Send button is enabled a
    submit goes through: the user record with the text of the input
    field is appended, the event is emitted, the input field is emptied
    and with that the Send button is disabled again. *)
Theorem enabled_send_button_sends env p :
  reachable p ->
  sendDisabled (render p) = false ->
  messages (chatState (step env InputSubmit p))
  = messages (chatState p) ++ [userMessage env (inputMessage p)]
  /\ sent (step env InputSubmit p)
     = sent p ++ [("message"%string, outgoing p env (inputMessage p) None)]
  /\ inputMessage (step env InputSubmit p) = []
  /\ sendDisabled (render (step env InputSubmit p)) = true.
Proof.
  intros R D. destruct (reachable_wired p R) as [s [Hs _]].
  unfold render in D. cbn in D. apply orb_false_iff in D.
  destruct D as [D _]. apply negb_false_iff in D.
  assert (T : trim (inputMessage p) <> []).
  { intros E. rewrite E in D. discriminate. }
  destruct (sendMessage_result env p (inputMessage p) None s T Hs)
    as [Hm [_ [Hi Ho]]].
  split; [exact Hm|]. split; [exact Ho|]. split; [exact Hi|].
  unfold render. cbn [sendDisabled].
  unfold step, handle, handleInputSubmit. rewrite Hi. reflexivity.
Qed.

Lemma enabled_send_button_sends_witness :
  map text (messages (chatState (step env0 InputSubmit drafted0)))
  = [welcomeText; lit "what about fees"]
  /\ inputMessage (step env0 InputSubmit drafted0) = [].
Proof.
  destruct (enabled_send_button_sends env0 drafted0) as [Hm [_ [Hi _]]].
  - unfold drafted0, connected0. do 2 constructor. constructor.
  - reflexivity.
  - split; [rewrite Hm; reflexivity|exact Hi].
Defined.

(** X5. On the mounted panel, activating a quick reply whose title is
    not blank empties the input field, whatever draft it held, and turns
    the typing indicator on; whether the connection flag is set plays no
    part. *)
Theorem quickReply_discards_draft env p title payload :
  reachable p ->
  trim title <> [] ->
  inputMessage (step env (QuickReply title payload) p) = []
  /\ isTyping (chatState (step env (QuickReply title payload) p)) = true
  /\ isConnected (chatState (step env (QuickReply title payload) p))
     = isConnected (chatState p)
  /\ sent (step env (QuickReply title payload) p)
     = sent p ++ [("message"%string, outgoing p env title (Some payload))].
Proof.
  intros R T. pose proof (reachable_wired p R) as W.
  destruct W as [s [Hs Hl]].
  destruct (sendMessage_result env p title (Some payload) s T Hs)
    as [_ [Ht [Hi Ho]]].
  split; [exact Hi|]. split; [exact Ht|]. split; [|exact Ho].
  rewrite step_isConnected by (exists s; split; assumption). reflexivity.
Qed.

Lemma quickReply_discards_draft_witness :
  inputMessage drafted0 = lit "what about fees"
  /\ inputMessage
       (step env0 (QuickReply (lit "FAQ") (lit "/faq"))
          (step env0 (SocketEvent "disconnect" noData) drafted0)) = []
  /\ List.length
       (sent (step env0 (QuickReply (lit "FAQ") (lit "/faq"))
                (step env0 (SocketEvent "disconnect" noData) drafted0)))
     = 1.
Proof.
  split; [reflexivity|].
  destruct (quickReply_discards_draft env0
              (step env0 (SocketEvent "disconnect" noData) drafted0)
              (lit "FAQ") (lit "/faq")) as [Hi [_ [_ Ho]]].
  - unfold drafted0, connected0. do 3 constructor. constructor.
  - vm_compute. discriminate.
  - split; [exact Hi|]. rewrite Ho. reflexivity.
Defined.

(** X6. The mounted panel ignores a socket event whose name is not one
    of the five it listens to: nothing of the panel changes. *)
Theorem unknown_socket_event_ignored env event data p :
  reachable p ->
  ~ In event socketEvents ->
  step env (SocketEvent event data) p = p.
Proof.
  intros R N. destruct (reachable_wired p R) as [s [Hs Hl]].
  unfold step, handle. rewrite Hs.
  destruct (dispatch_cases s event env data Hl)
    as [[E _]|[[E _]|[[E _]|[[E _]|[[E _]|[_ ->]]]]]];
    try (exfalso; apply N; rewrite E; cbn; tauto).
  reflexivity.
Qed.

Lemma unknown_socket_event_ignored_witness :
  step env0 (SocketEvent "message" blankOffer) connected0 = connected0.
Proof.
  apply (unknown_socket_event_ignored env0 "message" blankOffer connected0).
  - unfold connected0. constructor. constructor.
  - cbn. intros [H|[H|[H|[H|[H|H]]]]]; try discriminate; exact H.
Defined.

Lemma jseqb_true_iff a b : jseqb a b = true <-> a = b.
Proof.
  unfold jseqb. destruct (list_eq_dec N.eq_dec a b); split; congruence.
Qed.

(** X7. A [system] event shows exactly one toast with the message of
    its payload -- an error toast when the message type is [error], a
    success toast for any other type -- and changes nothing else: chat
    state, input field and emitted events stay as they are. *)
Theorem system_event_only_toasts env data p :
  reachable p ->
  chatState (step env (SocketEvent "system" data) p) = chatState p
  /\ inputMessage (step env (SocketEvent "system" data) p) = inputMessage p
  /\ sent (step env (SocketEvent "system" data) p) = sent p
  /\ (data_message_type data = lit "error" ->
      toasts (step env (SocketEvent "system" data) p)
      = toasts p ++ [(error, data_message data)])
  /\ (data_message_type data <> lit "error" ->
      toasts (step env (SocketEvent "system" data) p)
      = toasts p ++ [(success, data_message data)]).
Proof.
  intros R. destruct (reachable_wired p R) as [s [Hs Hl]].
  unfold step, handle, sent. rewrite Hs.
  destruct (dispatch_cases s "system" env data Hl)
    as [[E _]|[[E _]|[[E _]|[[E _]|[[_ ->]|[N _]]]]]];
    try discriminate; [|exfalso; apply N; cbn; tauto].
  unfold onSystem.
  destruct (jseqb (data_message_type data) (lit "error")) eqn:J; cbn;
    rewrite ?Hs; repeat split.
  - intros E. exfalso. apply E. apply jseqb_true_iff. exact J.
  - intros E. pose proof (proj2 (jseqb_true_iff _ _) E) as J'.
    change (jseqb (data_message_type data) (lit "error") = true) in J'.
    congruence.
Qed.

Lemma system_event_only_toasts_witness :
  toasts (step env0 (SocketEvent "system" systemError) connected0)
  = toasts connected0 ++ [(error, lit "Server busy")]
  /\ toasts (step env0 (SocketEvent "system" noData) connected0)
     = toasts connected0 ++ [(success, [])].
Proof.
  split.
  - apply (system_event_only_toasts env0 systemError connected0).
    + unfold connected0. constructor. constructor.
    + reflexivity.
  - apply (system_event_only_toasts env0 noData connected0).
    + unfold connected0. constructor. constructor.
    + vm_compute. discriminate.
Defined.





(** X9. Toggling fullscreen twice brings the panel back exactly as it
    was, and one toggle changes nothing but the fullscreen flag: message
    list, typing flag, connection flag, input field and emitted events
    are untouched. *)
Theorem toggleFullscreen_involution env env' p :
  step env' ToggleFullscreen (step env ToggleFullscreen p) = p
  /\ isFullscreen (chatState (step env ToggleFullscreen p))
     = negb (isFullscreen (chatState p))
  /\ messages (chatState (step env ToggleFullscreen p))
     = messages (chatState p)
  /\ isTyping (chatState (step env ToggleFullscreen p))
     = isTyping (chatState p)
  /\ isConnected (chatState (step env ToggleFullscreen p))
     = isConnected (chatState p)
  /\ inputMessage (step env ToggleFullscreen p) = inputMessage p
  /\ sent (step env ToggleFullscreen p) = sent p.
Proof.
  split; [|repeat split].
  destruct p as [[ms ty co la fu se] im re ci so me to sp].
  cbn. unfold with_chatState, with_isFullscreen. cbn.
  now rewrite negb_involutive.
Qed.

(** X10. [sendMessage] does nothing exactly when the message is made of
    white space only (the empty message included) or the socket
    reference is null; in every other case it makes its four calls, the
    last of which is the emit. *)
Theorem sendMessage_noop_iff_blank env p message payload :
  (sendMessage p env message payload = []
   <-> forallb isWhiteSpace message = true \/ socketRef p = None)
  /\ (sendMessage p env message payload <> [] ->
      List.length (sendMessage p env message payload) = 4
      /\ last (sendMessage p env message payload) (SetInputMessage [])
         = Emit "message" (outgoing p env message payload)).
Proof.
  unfold sendMessage, hasSocket.
  destruct (truthy (trim message)) eqn:T; destruct (socketRef p) eqn:S; cbn.
  - split; [|intros _; split; reflexivity].
    split; [discriminate|]. intros [H|H]; [|discriminate].
    apply trim_nil_iff in H. rewrite H in T. discriminate.
  - split; [|congruence]. split; [right; reflexivity|reflexivity].
  - split; [|congruence]. split; [|reflexivity].
    intros _. left. apply trim_nil_iff. now apply truthy_false_iff.
  - split; [|congruence]. split; [right; reflexivity|reflexivity].
Qed.

Lemma sendMessage_noop_iff_blank_witness :
  List.length (sendMessage connected0 env0 (lit " hi ") None) = 4.
Proof.
  apply (sendMessage_noop_iff_blank env0 connected0 (lit " hi ") None).
  vm_compute. discriminate.
Defined.

(** No socket event writes the input field. *)
Lemma socket_inputMessage env event data p :
  wired p ->
  inputMessage (step env (SocketEvent event data) p) = inputMessage p.
Proof.
  intros [s [Hs Hl]]. unfold step, handle. rewrite Hs.
  destruct (dispatch_cases s event env data Hl)
    as [[-> ->]|[[-> ->]|[[-> ->]|[[-> ->]|[[-> ->]|[_ ->]]]]]];
    try reflexivity.
  unfold onSystem. destruct (jseqb _ _); reflexivity.
Qed.

(** X24. While the panel is offline the text field and the Send button
    are disabled: right after a [disconnect] event both are, whatever
    the draft. Right after a [connect] event the text field is enabled
    and the Send button is enabled exactly when the draft is not blank.
    Neither event touches the draft. *)
Theorem offline_disables_input env data p :
  reachable p ->
  inputDisabled (render (step env (SocketEvent "disconnect" data) p)) = true
  /\ sendDisabled (render (step env (SocketEvent "disconnect" data) p))
     = true
  /\ inputDisabled (render (step env (SocketEvent "connect" data) p)) = false
  /\ sendDisabled (render (step env (SocketEvent "connect" data) p))
     = negb (truthy (trim (inputMessage p)))
  /\ inputValue (render (step env (SocketEvent "disconnect" data) p))
     = inputMessage p
  /\ inputValue (render (step env (SocketEvent "connect" data) p))
     = inputMessage p.
Proof.
  intros R. pose proof (reachable_wired p R) as W.
  unfold render. cbn [inputDisabled sendDisabled inputValue].
  rewrite !step_isConnected by exact W.
  rewrite !socket_inputMessage by exact W. cbn.
  rewrite orb_true_r, orb_false_r. repeat split.
Qed.

Lemma offline_disables_input_witness :
  sendDisabled (render drafted0) = false
  /\ sendDisabled
       (render (step env0 (SocketEvent "disconnect" noData) drafted0))
     = true.
Proof.
  split; [reflexivity|].
  apply (offline_disables_input env0 noData drafted0).
  unfold drafted0, connected0. do 2 constructor. constructor.
Defined.

End ChatPanelInvariants.

(* ===================================================================== *)
(** ** Further properties of the chat slice *)
(* ===================================================================== *)

Section ChatSliceInvariants.
Import JS ChatSlice.

Lemma reducer_suffix_history state a :
  a <> clearHistory ->
  (exists older,
     conversationHistory state = older ++ messages state) ->
  exists older,
    conversationHistory (reducer state a)
    = older ++ messages (reducer state a).
Proof.
  intros N [older E].
  destruct a as [m|b|b|v|v| | |t]; cbn; try (exists older; exact E).
  - exists older. rewrite E. now rewrite app_assoc.
  - exists (conversationHistory state). now rewrite app_nil_r.
  - congruence.
Qed.

Lemma reducer_suffix_messages state a :
  a <> clearMessages ->
  (exists older,
     messages state = older ++ conversationHistory state) ->
  exists older,
    messages (reducer state a)
    = older ++ conversationHistory (reducer state a).
Proof.
  intros N [older E].
  destruct a as [m|b|b|v|v| | |t]; cbn; try (exists older; exact E).
  - exists older. rewrite E. now rewrite app_assoc.
  - congruence.
  - exists (messages state). now rewrite app_nil_r.
Qed.

(** X11. As long as [clearHistory] is never dispatched, the message list
    of the slice is the tail end of the conversation history: the
    history is some older records followed by exactly the current
    messages, so [clearMessages] loses nothing the history does not
    keep. Symmetrically, as long as [clearMessages] is never dispatched
    the history is the tail end of the message list. *)
Theorem messages_tail_of_history actions :
  (~ In clearHistory actions ->
   exists older,
     conversationHistory (reduce actions initialState)
     = older ++ messages (reduce actions initialState))
  /\ (~ In clearMessages actions ->
      exists older,
        messages (reduce actions initialState)
        = older ++ conversationHistory (reduce actions initialState)).
Proof.
  split; intros N.
  - assert (G : forall l state,
               ~ In clearHistory l ->
               (exists older,
                  conversationHistory state = older ++ messages state) ->
               exists older,
                 conversationHistory (reduce l state)
                 = older ++ messages (reduce l state)).
    { induction l as [|a l IH]; intros state Nl E; simpl; [exact E|].
      apply IH; [intros I; apply Nl; right; exact I|].
      apply reducer_suffix_history; [|exact E].
      intros ->. apply Nl. left. reflexivity. }
    apply G; [exact N|]. exists []. reflexivity.
  - assert (G : forall l state,
               ~ In clearMessages l ->
               (exists older,
                  messages state = older ++ conversationHistory state) ->
               exists older,
                 messages (reduce l state)
                 = older ++ conversationHistory (reduce l state)).
    { induction l as [|a l IH]; intros state Nl E; simpl; [exact E|].
      apply IH; [intros I; apply Nl; right; exact I|].
      apply reducer_suffix_messages; [|exact E].
      intros ->. apply Nl. left. reflexivity. }
    apply G; [exact N|]. exists []. reflexivity.
Qed.

Lemma messages_tail_of_history_witness :
  exists older,
    conversationHistory
      (reduce [addMessage hello; clearMessages; addMessage hello]
         initialState)
    = older
      ++ messages (reduce [addMessage hello; clearMessages; addMessage hello]
                     initialState).
Proof.
  apply (messages_tail_of_history
           [addMessage hello; clearMessages; addMessage hello]).
  cbn. intros [H|[H|[H|H]]]; try discriminate; exact H.
Defined.

Lemma reducer_sessionId state a :
  sessionId (reducer state a)
  = match a with
    | setSessionId v => Some v
    | _ => sessionId state
    end.
Proof. destruct a; reflexivity. Qed.

(** X12. No action of the slice resets the session id: once it is set
    it stays set, whatever is dispatched afterwards, the two clear
    actions included; and starting from the initial state it is null
    exactly as long as no [setSessionId] has been dispatched. *)
Theorem sessionId_never_reset actions state :
  (sessionId state <> None -> sessionId (reduce actions state) <> None)
  /\ (sessionId (reduce actions initialState) = None
      <-> forall v, ~ In (setSessionId v) actions).
Proof.
  assert (G : forall l st,
             sessionId (reduce l st) = None
             <-> sessionId st = None /\ forall v, ~ In (setSessionId v) l).
  { induction l as [|a l IH]; intros st; simpl.
    - tauto.
    - rewrite IH, reducer_sessionId. split.
      + intros [E Nl]. destruct a as [m|b|b|v|v| | |t];
          try discriminate;
          (split; [exact E|]; intros w [I|I];
           [discriminate|exact (Nl w I)]).
      + intros [E Nl]. split.
        * destruct a as [m|b|b|v|v| | |t]; try exact E.
          exfalso. apply (Nl v). left. reflexivity.
        * intros w I. apply (Nl w). right. exact I. }
  split.
  - intros S E. apply G in E. tauto.
  - rewrite G. cbn. tauto.
Qed.

Lemma sessionId_never_reset_witness :
  sessionId
    (reduce [clearMessages; clearHistory; other "user/clearUser"]
       (reducer initialState (setSessionId (lit "s-42"))))
  <> None.
Proof.
  apply (sessionId_never_reset
           [clearMessages; clearHistory; other "user/clearUser"]
           (reducer initialState (setSessionId (lit "s-42")))).
  discriminate.
Defined.

End ChatSliceInvariants.

(* ===================================================================== *)
(** ** Further properties of the courses slice *)
(* ===================================================================== *)

Section CoursesInvariants.
Import JS CoursesSlice.

Variable toLowerCase : jsstring -> jsstring.

Lemma subsequence_refl {A : Type} (l : list A) : subsequence l l.
Proof. induction l; constructor; assumption. Qed.

Lemma reducer_subsequence state a :
  subsequence (filteredCourses state) (courses state) ->
  subsequence (filteredCourses (reducer toLowerCase state a))
    (courses (reducer toLowerCase state a)).
Proof.
  intros H. destruct a; cbn; try exact H; try apply subsequence_refl.
  rewrite filtered_selected. apply filter_subsequence.
Qed.

(** X13. Whatever actions are dispatched to the slice, starting from
    its initial state, [filteredCourses] is always [courses] with some
    courses left out and the others in the same order: the slice never
    shows a course that is not loaded, never shows one twice over, and
    never reorders. *)
Theorem filteredCourses_subsequence actions :
  subsequence
    (filteredCourses (reduce toLowerCase actions initialState))
    (courses (reduce toLowerCase actions initialState)).
Proof.
  assert (G : forall l state,
             subsequence (filteredCourses state) (courses state) ->
             subsequence (filteredCourses (reduce toLowerCase l state))
               (courses (reduce toLowerCase l state))).
  { induction l as [|a l IH]; intros state H; simpl; [exact H|].
    apply IH. apply reducer_subsequence. exact H. }
  apply G. constructor.
Qed.

(** X14. [filterCourses] reads only [courses] and [filters]: it leaves
    both as they are, so dispatching it a second time changes nothing,
    and its result does not depend on what [filteredCourses] and
    [pagination.total] held before. *)
Theorem filterCourses_idempotent state shown n :
  filterCourses toLowerCase (filterCourses toLowerCase state)
  = filterCourses toLowerCase state
  /\ courses (filterCourses toLowerCase state) = courses state
  /\ filters (filterCourses toLowerCase state) = filters state
  /\ filteredCourses
       (filterCourses toLowerCase
          (setPagination {| set_page := None; set_limit := None;
                            set_total := Some n |}
             {| courses := courses state; filteredCourses := shown;
                selectedCourse := selectedCourse state;
                categories := categories state;
                isLoading := isLoading state; error := error state;
                filters := filters state;
                pagination := pagination state |}))
     = filteredCourses (filterCourses toLowerCase state).
Proof. repeat split. Qed.

Lemma levelString_inj l1 l2 :
  jseqb (levelString l1) (levelString l2) = true -> l1 = l2.
Proof. destruct l1, l2; intros H; try reflexivity; discriminate H. Qed.

(** X15. With a level filter set, every course [filterCourses] keeps has
    exactly that level; and when the filter string is not one of the
    three level names -- a name in another letter case, say -- no course
    is kept at all. The same for the category: every course kept has
    exactly the category of the filter. *)
Theorem level_and_category_filters state c :
  (f_level (filters state) <> [] ->
   In c (filteredCourses (filterCourses toLowerCase state)) ->
   levelString (level c) = f_level (filters state))
  /\ (f_level (filters state) <> [] ->
      ~ In (f_level (filters state)) levelNames ->
      filteredCourses (filterCourses toLowerCase state) = [])
  /\ (f_category (filters state) <> [] ->
      In c (filteredCourses (filterCourses toLowerCase state)) ->
      category c = f_category (filters state)).
Proof.
  assert (S : forall x,
             In x (filteredCourses (filterCourses toLowerCase state)) ->
             selected toLowerCase (filters state) x = true).
  { intros x I. unfold filterCourses in I. cbn [filteredCourses] in I.
    rewrite filtered_selected in I. apply filter_In in I. tauto. }
  assert (L : forall x,
             f_level (filters state) <> [] ->
             In x (filteredCourses (filterCourses toLowerCase state)) ->
             levelString (level x) = f_level (filters state)).
  { intros x N I. apply S in I. unfold selected in I.
    apply andb_true_iff in I. destruct I as [I _].
    apply andb_true_iff in I. destruct I as [_ I].
    unfold levelMatches in I.
    destruct (f_level (filters state)) as [|c0 cr]; [congruence|].
    unfold jseqb in I. destruct (list_eq_dec N.eq_dec _ _); congruence. }
  split; [apply L|]. split.
  - intros N NI.
    destruct (filteredCourses (filterCourses toLowerCase state))
      as [|x xs] eqn:E; [reflexivity|].
    exfalso. apply NI. rewrite <- (L x N) by (try rewrite E; left; reflexivity).
    destruct (level x); cbn; tauto.
  - intros N I. apply S in I. unfold selected in I.
    apply andb_true_iff in I. destruct I as [I _].
    apply andb_true_iff in I. destruct I as [I _].
    apply andb_true_iff in I. destruct I as [_ I].
    unfold categoryMatches in I.
    destruct (f_category (filters state)) as [|c0 cr]; [congruence|].
    unfold jseqb in I. destruct (list_eq_dec N.eq_dec _ _); congruence.
Qed.

Lemma leb_nan_l x : PrimFloat.leb nan x = false.
Proof. rewrite leb_spec. reflexivity. Qed.

Lemma leb_nan_r x : PrimFloat.leb x nan = false.
Proof.
  rewrite leb_spec. change (Prim2SF nan) with S754_nan.
  destruct (Prim2SF x) as [[]|[]| |[] m e]; reflexivity.
Qed.

Lemma filter_none {A : Type} (f : A -> bool) (l : list A) :
  (forall x, f x = false) -> filter f l = [].
Proof.
  intros H. induction l as [|x l IH]; simpl; [reflexivity|].
  now rewrite H.
Qed.

(** X16. No comparison with NaN holds, so a course whose price is NaN is
    never kept by [filterCourses], whatever the price range; and when
    either bound of the price range is NaN, no course is kept at all. *)
Theorem nan_price_filter state c :
  (price c = nan ->
   ~ In c (filteredCourses (filterCourses toLowerCase state)))
  /\ (fst (priceRange (filters state)) = nan
      \/ snd (priceRange (filters state)) = nan ->
      filteredCourses (filterCourses toLowerCase state) = []).
Proof.
  unfold filterCourses. cbn [filteredCourses].
  rewrite filtered_selected. split.
  - intros E I. apply filter_In in I. destruct I as [_ I].
    unfold selected, priceWithin, leq in I. rewrite E, leb_nan_r in I.
    discriminate.
  - intros E. apply filter_none. intros x.
    unfold selected, priceWithin, leq.
    destruct E as [E|E]; rewrite E.
    + now rewrite leb_nan_l.
    + rewrite leb_nan_r. now rewrite andb_false_r.
Qed.

(** X17. [setFilters] merges: dispatching it with [a] and then with [b]
    is dispatching it once with [{...a, ...b}], a later value winning
    over an earlier one and a field absent from both being kept; an
    empty payload changes nothing. It never refilters: [courses],
    [filteredCourses] and [pagination] stay as they were until
    [filterCourses] is dispatched. *)
Theorem setFilters_merges state a b :
  setFilters b (setFilters a state) = setFilters (spread a b) state
  /\ setFilters {| set_category := None; set_level := None;
                   set_priceRange := None; set_searchQuery := None |} state
     = state
  /\ courses (setFilters a state) = courses state
  /\ filteredCourses (setFilters a state) = filteredCourses state
  /\ pagination (setFilters a state) = pagination state.
Proof.
  split; [|split; [|repeat split]].
  - unfold setFilters, spread. cbn.
    destruct (set_category b), (set_level b), (set_priceRange b),
      (set_searchQuery b); reflexivity.
  - destruct state as [cs fc sc ca lo er [fcat flev pr sq] pg].
    reflexivity.
Qed.

Lemma startsWith_iff q s :
  startsWith q s = true <-> exists post, s = q ++ post.
Proof.
  revert s. induction q as [|a q IH]; intros s; simpl.
  - split; [intros _; exists s; reflexivity|reflexivity].
  - destruct s as [|b s].
    + split; [discriminate|]. intros [post E]. discriminate.
    + rewrite andb_true_iff, N.eqb_eq, IH. split.
      * intros [-> [post ->]]. exists post. reflexivity.
      * intros [post E]. injection E as -> ->. split; [reflexivity|].
        exists post. reflexivity.
Qed.

(** [includes] holds exactly of the strings the query occurs in. *)
Lemma includes_iff s q :
  includes s q = true <-> exists pre post, s = pre ++ q ++ post.
Proof.
  induction s as [|c s IH].
  - cbn [includes]. rewrite orb_false_r, startsWith_iff. split.
    + intros [post E]. exists [], post. exact E.
    + intros [pre [post E]]. destruct pre as [|x pre]; [|discriminate].
      exists post. exact E.
  - cbn [includes]. rewrite orb_true_iff, startsWith_iff, IH. split.
    + intros [[post E]|[pre [post E]]].
      * exists [], post. exact E.
      * exists (c :: pre), post. rewrite E. reflexivity.
    + intros [pre [post E]]. destruct pre as [|x pre].
      * left. exists post. exact E.
      * right. injection E as _ E. exists pre, post. exact E.
Qed.

(** X18. With a search query set, a course is kept by [filterCourses]
    exactly when it is a loaded course, passes the price, category and
    level filters, and the lower-cased query occurs as a run of
    consecutive characters in the lower-cased title, description or
    instructor of the course. *)
Theorem search_keeps_substring_matches state c :
  searchQuery (filters state) <> [] ->
  (In c (filteredCourses (filterCourses toLowerCase state))
   <-> In c (courses state)
       /\ priceWithin (priceRange (filters state)) c = true
       /\ categoryMatches (filters state) c = true
       /\ levelMatches (filters state) c = true
       /\ exists field,
            In field [title c; description c; instructor c]
            /\ exists pre post,
                 toLowerCase field
                 = pre ++ toLowerCase (searchQuery (filters state)) ++ post).
Proof.
  intros Q. unfold filterCourses. cbn [filteredCourses].
  rewrite filtered_selected, filter_In. unfold selected.
  rewrite !andb_true_iff.
  assert (M : searchMatches toLowerCase (filters state) c = true
              <-> exists field,
                    In field [title c; description c; instructor c]
                    /\ exists pre post,
                         toLowerCase field
                         = pre ++ toLowerCase (searchQuery (filters state))
                           ++ post).
  { unfold searchMatches.
    destruct (searchQuery (filters state)) as [|q0 qr] eqn:E; [congruence|].
    rewrite existsb_exists. split.
    - intros [x [I H]]. exists x. split; [exact I|].
      apply includes_iff. exact H.
    - intros [x [I H]]. exists x. split; [exact I|].
      apply includes_iff. exact H. }
  rewrite M. tauto.
Qed.

End CoursesInvariants.

Section CoursesInvariantsWitnesses.
Import JS CoursesSlice.

Lemma level_and_category_filters_witness :
  filteredCourses (levelFiltered "Beginner") = []
  /\ map title (filteredCourses (levelFiltered "beginner"))
     = [lit "Python Basics"; lit "Free Taster"].
Proof.
  split; [|vm_compute; reflexivity].
  apply (level_and_category_filters asciiLower
           (setFilters {| set_category := None;
                          set_level := Some (lit "Beginner");
                          set_priceRange := None;
                          set_searchQuery := None |} loaded)
           (course "x" "y" "z" beginner 0%float)).
  - discriminate.
  - cbn. intros [H|[H|[H|H]]]; try discriminate; exact H.
Defined.

Lemma nan_price_filter_witness :
  ~ In (course "x" "y" "z" beginner nan)
      (filteredCourses
         (filterCourses asciiLower
            (setCourses [course "x" "y" "z" beginner nan] initialState)))
  /\ filteredCourses
       (filterCourses asciiLower
          (setFilters {| set_category := None; set_level := None;
                         set_priceRange := Some (nan, 1000%float);
                         set_searchQuery := None |} loaded))
     = [].
Proof.
  split.
  { apply (nan_price_filter asciiLower
             (setCourses [course "x" "y" "z" beginner nan] initialState)
             (course "x" "y" "z" beginner nan)).
    reflexivity. }
  apply (nan_price_filter asciiLower
           (setFilters {| set_category := None; set_level := None;
                          set_priceRange := Some (nan, 1000%float);
                          set_searchQuery := None |} loaded)
           (course "x" "y" "z" beginner nan)).
  left. reflexivity.
Defined.

Lemma search_keeps_substring_matches_witness :
  In (course "Python Basics" "programming" "Ada" beginner 199%float)
    (filteredCourses
       (filterCourses asciiLower
          (setFilters {| set_category := None; set_level := None;
                         set_priceRange := None;
                         set_searchQuery := Some (lit "THON") |} loaded))).
Proof.
  apply (search_keeps_substring_matches asciiLower
           (setFilters {| set_category := None; set_level := None;
                          set_priceRange := None;
                          set_searchQuery := Some (lit "THON") |} loaded)
           (course "Python Basics" "programming" "Ada" beginner 199%float)).
  - discriminate.
  - split; [left; reflexivity|].
    split; [vm_compute; reflexivity|].
    split; [reflexivity|]. split; [reflexivity|].
    exists (lit "Python Basics"). split; [left; reflexivity|].
    exists (lit "py"), (lit " basics"). reflexivity.
Defined.

End CoursesInvariantsWitnesses.

(* ===================================================================== *)
(** ** Properties of the user slice *)
(* ===================================================================== *)

Section UserSliceFacts.
Import JS UserSlice.

Lemma reducer_signedIn state a :
  isAuthenticated state = signedIn state ->
  isAuthenticated (reducer state a) = signedIn (reducer state a).
Proof.
  intros H. unfold signedIn in *.
  destruct a; cbn; try exact H; try reflexivity.
  destruct (currentUser state) eqn:E; cbn; rewrite ?E; exact H.
Qed.

(** X19. Whatever actions are dispatched to the user slice, starting
    from its initial state, [isAuthenticated] is true exactly when
    [currentUser] is not null: the flag and the user are always set and
    cleared together. *)
Theorem isAuthenticated_iff_user actions :
  isAuthenticated (reduce actions initialState) = true
  <-> currentUser (reduce actions initialState) <> None.
Proof.
  assert (G : forall l state,
             isAuthenticated state = signedIn state ->
             isAuthenticated (reduce l state) = signedIn (reduce l state)).
  { induction l as [|a l IH]; intros state H; simpl; [exact H|].
    apply IH. apply reducer_signedIn. exact H. }
  rewrite (G actions initialState eq_refl). unfold signedIn.
  destruct (currentUser (reduce actions initialState)); split;
    congruence.
Qed.

(** X20. [updateUserPreferences] is dropped when no user is signed in:
    the state stays exactly as it was, so preferences sent before
    [setUser] are lost. With a user signed in it rewrites only the
    preferences -- a field present in the payload takes the new value,
    an absent one keeps the old -- and leaves the identity of the user,
    the enrollments and the flags of the slice alone. *)
Theorem updateUserPreferences_scope state payload u :
  (currentUser state = None ->
   reducer state (updateUserPreferences payload) = state)
  /\ (forall v,
        currentUser
          (reduce [updateUserPreferences payload; setUser v] initialState)
        = Some v)
  /\ (currentUser state = Some u ->
      currentUser (reducer state (updateUserPreferences payload))
      = Some (with_preferences (mergePreferences payload (preferences u)) u)
      /\ isAuthenticated (reducer state (updateUserPreferences payload))
         = isAuthenticated state
      /\ isLoading (reducer state (updateUserPreferences payload))
         = isLoading state
      /\ error (reducer state (updateUserPreferences payload))
         = error state).
Proof.
  split; [|split].
  - intros E. cbn. now rewrite E.
  - reflexivity.
  - intros E. cbn. rewrite E. repeat split.
Qed.

Lemma updateUserPreferences_scope_witness :
  reducer initialState (updateUserPreferences darkOnly) = initialState
  /\ option_map (fun w => (theme (preferences w), language (preferences w),
                           name w, enrollments w))
       (currentUser (reducer (reducer initialState (setUser ada))
                       (updateUserPreferences darkOnly)))
     = Some (dark, lit "en", lit "Ada", [lit "PY101"]).
Proof.
  destruct (updateUserPreferences_scope initialState darkOnly ada)
    as [H1 _].
  destruct (updateUserPreferences_scope (reducer initialState (setUser ada))
              darkOnly ada) as [_ [_ H3]].
  split; [apply H1; reflexivity|].
  destruct (H3 eq_refl) as [E _]. rewrite E. reflexivity.
Defined.

End UserSliceFacts.

(* ===================================================================== *)
(** ** Properties of the ui slice *)
(* ===================================================================== *)

Section UiSliceFacts.
Import JS UiSlice.

Lemma jseqb_false_iff a b : jseqb a b = false <-> a <> b.
Proof.
  unfold jseqb. destruct (list_eq_dec N.eq_dec a b); split; congruence.
Qed.

Lemma filter_all {A : Type} (f : A -> bool) (l : list A) :
  (forall x, In x l -> f x = true) -> filter f l = l.
Proof.
  induction l as [|x l IH]; intros H; simpl; [reflexivity|].
  rewrite (H x) by (left; reflexivity).
  rewrite IH; [reflexivity|]. intros y I. apply H. right. exact I.
Qed.

(** X21. [removeNotification] removes every notification that has the
    given id -- all of them, should several share it -- and keeps all
    the others, in their order; when no notification has the id the
    state is left exactly as it was. *)
Theorem removeNotification_by_id env state i :
  (forall n,
     In n (notifications (reducer env state (removeNotification i)))
     <-> In n (notifications state) /\ id n <> i)
  /\ ~ In i (map id (notifications (reducer env state (removeNotification i))))
  /\ map id (notifications (reducer env state (removeNotification i)))
     = filter (fun j => negb (jseqb j i)) (map id (notifications state))
  /\ (~ In i (map id (notifications state)) ->
      reducer env state (removeNotification i) = state).
Proof.
  cbn [reducer with_notifications notifications].
  split; [|split; [|split]].
  - intros n. rewrite filter_In, negb_true_iff, jseqb_false_iff. tauto.
  - intros I. apply in_map_iff in I. destruct I as [n [E I]].
    apply filter_In in I. destruct I as [_ I].
    rewrite negb_true_iff, jseqb_false_iff in I. congruence.
  - induction (notifications state) as [|n l IH]; simpl; [reflexivity|].
    destruct (jseqb (id n) i); simpl; now rewrite IH.
  - intros N. unfold with_notifications. rewrite filter_all.
    + destruct state; reflexivity.
    + intros n I. rewrite negb_true_iff, jseqb_false_iff.
      intros E. apply N. apply in_map_iff. exists n. tauto.
Qed.

Lemma removeNotification_by_id_witness :
  reducer env1 (reducer env1 initialState (setLoading true))
    (removeNotification (lit "0.9x1c"))
  = reducer env1 initialState (setLoading true).
Proof.
  apply (removeNotification_by_id env1
           (reducer env1 initialState (setLoading true)) (lit "0.9x1c")).
  cbn. tauto.
Defined.

(** X22. Adding a notification and then removing it by its id gives
    back the list of notifications there was, provided no earlier
    notification has the same id. The id is a random string that is not
    checked against the ones in use: when an earlier notification does
    share it, removing the new one removes the earlier one too. *)
Theorem add_then_remove_notification env env' state payload :
  (~ In (random36 env) (map id (notifications state)) ->
   notifications
     (reducer env' (reducer env state (addNotification payload))
        (removeNotification (random36 env)))
   = notifications state)
  /\ notifications
       (reducer env' (reducer env state (addNotification payload))
          (removeNotification (random36 env)))
     = filter (fun n => negb (jseqb (id n) (random36 env)))
         (notifications state)
  /\ List.length
       (notifications (reducer env state (addNotification payload)))
     = S (List.length (notifications state)).
Proof.
  assert (E : notifications
                (reducer env' (reducer env state (addNotification payload))
                   (removeNotification (random36 env)))
              = filter (fun n => negb (jseqb (id n) (random36 env)))
                  (notifications state)).
  { cbn. rewrite filter_app. cbn.
    assert (J : jseqb (random36 env) (random36 env) = true).
    { unfold jseqb. destruct (list_eq_dec N.eq_dec _ _); congruence. }
    rewrite J. cbn. apply app_nil_r. }
  split; [|split; [exact E|]].
  - intros N. rewrite E. apply filter_all.
    intros n I. rewrite negb_true_iff, jseqb_false_iff.
    intros Q. apply N. apply in_map_iff. exists n. tauto.
  - cbn. rewrite length_app. cbn. lia.
Qed.

Lemma add_then_remove_notification_witness :
  notifications
    (reducer env1 (reducer env1 initialState (addNotification saved))
       (removeNotification (random36 env1)))
  = []
  /\ notifications
       (reducer env1
          (reducer env1 (reducer env1 initialState (addNotification saved))
             (addNotification saved))
          (removeNotification (random36 env1)))
     = [].
Proof.
  split.
  - destruct (add_then_remove_notification env1 env1 initialState saved)
      as [H _].
    apply H. cbn. tauto.
  - destruct (add_then_remove_notification env1 env1
                (reducer env1 initialState (addNotification saved)) saved)
      as [_ [E _]].
    rewrite E. reflexivity.
Defined.

(** X23. [setModalOpen] writes one modal flag and no other: afterwards
    the named modal reads the value given, each of the two other modals
    reads what it read before, and the rest of the state is untouched;
    so setting two different modals gives the same state in either
    order. *)
Theorem setModalOpen_one_flag env state modal open other_modal open' :
  getModal modal (modals (reducer env state (setModalOpen modal open)))
  = open
  /\ (other_modal <> modal ->
      getModal other_modal
        (modals (reducer env state (setModalOpen modal open)))
      = getModal other_modal (modals state))
  /\ notifications (reducer env state (setModalOpen modal open))
     = notifications state
  /\ chatSettings (reducer env state (setModalOpen modal open))
     = chatSettings state
  /\ sidebarOpen (reducer env state (setModalOpen modal open))
     = sidebarOpen state
  /\ (other_modal <> modal ->
      reducer env (reducer env state (setModalOpen modal open))
        (setModalOpen other_modal open')
      = reducer env (reducer env state (setModalOpen other_modal open'))
          (setModalOpen modal open)).
Proof.
  split; [destruct modal; reflexivity|].
  split; [intros N; destruct modal, other_modal; try reflexivity; congruence|].
  do 3 (split; [reflexivity|]).
  intros N; destruct modal, other_modal; try reflexivity; congruence.
Qed.

Lemma setModalOpen_one_flag_witness :
  getModal helpModal
    (modals (reducer env1 initialState (setModalOpen settingsModal true)))
  = false
  /\ getModal settingsModal
       (modals (reducer env1 initialState (setModalOpen settingsModal true)))
     = true.
Proof.
  destruct (setModalOpen_one_flag env1 initialState settingsModal true
              helpModal true) as [H1 [H2 _]].
  split; [rewrite H2; [reflexivity|discriminate]|exact H1].
Defined.

End UiSliceFacts.
